(** * Excel-to-JSON quotes converter: model and verified properties

    A shallow embedding of the Go package [utils] of the converter:
    - the current pipeline (batched accumulation, two output files
      [quotes.json] and [quotesMetadata.json]) is in [Module Batched];
    - the older single-file variant (unbatched loop, one combined file
      [quotes_output.json]) is in [Module Legacy].

    Go values are modelled as the code has them: strings are byte strings
    ([string]), [int]/[int64] values are [Z], slices carry their nil-ness,
    [error] values keep their message and their [Unwrap] chain, and the
    effects of the program (file writes, log lines, standard output, handle
    release, process exit) are threaded through an explicit [World]. *)

From Stdlib Require Import ZArith String Ascii List Lia Bool.
From Stdlib Require Import DecimalString Sorted.
From stdpp Require Import base option list strings gmap.

Local Open Scope Z_scope.

(** ** Go strings and the [strings] package *)

(** [strings.ReplaceAll(s, old, new)] and [strings.Split(s, sep)] are only
    called with the one-byte patterns [" "] and [","]; the model takes the
    pattern as a byte.  A one-byte ASCII pattern matches exactly at the
    positions of that byte, and matches cannot overlap. *)
Fixpoint strings_ReplaceAll (s : string) (old : ascii) (new : string) : string :=
  match s with
  | EmptyString => EmptyString
  | String c s' =>
      if Ascii.eqb c old
      then new +:+ strings_ReplaceAll s' old new
      else String c (strings_ReplaceAll s' old new)
  end.

(** The pieces of [s] between the occurrences of [sep]; there is one more
    piece than there are separators, so the result is never empty. *)
Fixpoint strings_Split (s : string) (sep : ascii) : list string :=
  match s with
  | EmptyString => [EmptyString]
  | String c s' =>
      if Ascii.eqb c sep
      then EmptyString :: strings_Split s' sep
      else match strings_Split s' sep with
           | piece :: pieces => String c piece :: pieces
           | [] => [String c EmptyString]
           end
  end.

(** [strings.Join], used to state what [strings_Split] computes. *)
Fixpoint strings_Join (l : list string) (sep : string) : string :=
  match l with
  | [] => EmptyString
  | [x] => x
  | x :: l' => x +:+ sep +:+ strings_Join l' sep
  end.

(** [strconv.FormatInt(n, 10)], as used by [%d] and by the JSON encoder. *)
Definition strconv_Itoa (n : Z) : string :=
  NilZero.string_of_int (Z.to_int n).

(** [%v] of a [[]string]: the elements separated by spaces, in brackets. *)
Definition fmt_v_strings (l : list string) : string :=
  "[" +:+ strings_Join l " " +:+ "]".

(** ** Go slices

    A slice is either [nil] or a (possibly empty) sequence; the difference
    is visible in the JSON output ([null] against [[]]). *)
Definition slice (A : Type) : Type := option (list A).

Definition nil_slice {A} : slice A := None.

Definition elems {A} (s : slice A) : list A := default [] s.

(** [len(l)], an [int]. *)
Definition len {A} (l : list A) : Z := Z.of_nat (length l).

Definition slice_len {A} (s : slice A) : Z := len (elems s).

(** [append(s, x)] *)
Definition append {A} (s : slice A) (x : A) : slice A :=
  Some (elems s ++ [x]).

(** [append(s, t...)]: appending no element returns [s] itself, so a nil
    slice stays nil. *)
Definition append_all {A} (s : slice A) (t : slice A) : slice A :=
  match elems t with
  | [] => s
  | _ :: _ => Some (elems s ++ elems t)
  end.

(** ** Go errors

    [Error e] is the message; [Unwrap e] is the error that [e] wraps, which
    [fmt.Errorf] records for the verb [%w] only. *)
Inductive error : Type :=
  | ErrLeaf (msg : string)
  | ErrWrap (msg : string) (cause : error).

Definition Error (e : error) : string :=
  match e with
  | ErrLeaf msg => msg
  | ErrWrap msg _ => msg
  end.

Definition Unwrap (e : error) : option error :=
  match e with
  | ErrLeaf _ => None
  | ErrWrap _ cause => Some cause
  end.

(** [fmt.Errorf(msg)] without any verb. *)
Definition fmt_Errorf (msg : string) : error := ErrLeaf msg.

(** [fmt.Errorf(prefix + "%w", err)] *)
Definition fmt_Errorf_w (pre : string) (err : error) : error :=
  ErrWrap (pre +:+ Error err) err.

(** [fmt.Errorf(prefix + "%v", err)]: the text of [err] only. *)
Definition fmt_Errorf_v (pre : string) (err : error) : error :=
  ErrLeaf (pre +:+ Error err).

(** [errors.Is(e, target)] restricted to the [Unwrap] chain. *)
Fixpoint in_chain (target e : error) : Prop :=
  e = target \/
  match e with
  | ErrLeaf _ => False
  | ErrWrap _ cause => in_chain target cause
  end.

(** ** The [encoding/json] encoder

    [json.MarshalIndent] is [json.Marshal] followed by [json.Indent]: the
    value is first turned into a JSON document, which is then laid out one
    member per line.  The string-literal encoder of the library (quoting,
    escaping of control and HTML characters, replacement of invalid UTF-8)
    is a collaborator of the program and is taken as a parameter. *)
Class StringEncoder := encodeString : string -> string.

#[local] Set Warnings "-register-all".
Inductive json : Type :=
  | JNull
  | JNumber (n : Z)
  | JString (s : string)
  | JArray (items : list json)
  | JObject (members : list (string * json)).

Definition dquote : string := String "034"%char EmptyString.
Definition newline : string := String "010"%char EmptyString.

Fixpoint repeat_string (s : string) (n : nat) : string :=
  match n with
  | O => EmptyString
  | S n' => s +:+ repeat_string s n'
  end.

Section Indent.
Context {enc : StringEncoder}.
Variables (pre indent : string).

(** The line break written by [json.Indent] at nesting depth [d]. *)
Definition break (d : nat) : string :=
  newline +:+ pre +:+ repeat_string indent d.

Definition layout (opening closing : string) (d : nat) (items : list string) : string :=
  match items with
  | [] => opening +:+ closing
  | _ :: _ =>
      opening +:+ break (S d) +:+ strings_Join items ("," +:+ break (S d))
      +:+ break d +:+ closing
  end.

(** Field names are written between quotes as they are: none of the
    struct tags of this program holds a character that is escaped. *)
Fixpoint render (d : nat) (v : json) : string :=
  match v with
  | JNull => "null"
  | JNumber n => strconv_Itoa n
  | JString s => encodeString s
  | JArray items => layout "[" "]" d (map (render (S d)) items)
  | JObject members =>
      layout "{" "}" d
        (map (fun kv => dquote +:+ fst kv +:+ dquote +:+ ": " +:+ render (S d) (snd kv))
             members)
  end.
End Indent.

(** [json.MarshalIndent(v, prefix, indent)] on an already converted value.
    For the types of this program (strings, integers, slices and structs
    of these) the encoder has no failure case. *)
Definition json_MarshalIndent {enc : StringEncoder} (v : json) (pre indent : string)
  : string + error :=
  inl (render pre indent 0 v).

(** A slice is encoded as [null] when nil and as an array otherwise. *)
Definition slice_json {A} (f : A -> json) (s : slice A) : json :=
  match s with
  | None => JNull
  | Some l => JArray (map f l)
  end.

(** A field tagged [omitempty] is left out when it holds its zero value. *)
Definition omitempty_string (name : string) (s : string) : list (string * json) :=
  if String.eqb s "" then [] else [(name, JString s)].

Definition omitempty_int (name : string) (n : Z) : list (string * json) :=
  if n =? 0 then [] else [(name, JNumber n)].

(** ** Data model (shared by both variants of the package) *)

(** [Quote] represents the structure for each quote in the JSON output. *)
Record Quote : Type := mkQuote {
  ID : Z;                (* int64  `json:"id"` *)
  Text : string;         (*        `json:"text"` *)
  Author : string;       (*        `json:"author,omitempty"` *)
  Year : Z;              (* int    `json:"year,omitempty"` *)
  Context : string;      (*        `json:"context,omitempty"` *)
  Tags : slice string;   (*        `json:"tags"` *)
  Language : string      (*        `json:"lang"` *)
}.

Record MetadataSchema : Type := mkSchema {
  Format : string;       (* `json:"format"` *)
  Encoding : string;     (* `json:"encoding"` *)
  FileType : string      (* `json:"filetype"` *)
}.

(** [Metadata] represents additional metadata information. *)
Record Metadata : Type := mkMetadata {
  Version : string;      (* `json:"version"` *)
  LastUpdated : string;  (* `json:"lastUpdated"` *)
  TotalQuotes : Z;       (* int `json:"totalQuotes"` *)
  URL : string;          (* `json:"url"` *)
  Schema : MetadataSchema (* `json:"schema"` *)
}.

Definition Quote_json (q : Quote) : json :=
  JObject ([("id", JNumber (ID q)); ("text", JString (Text q))]
           ++ omitempty_string "author" (Author q)
           ++ omitempty_int "year" (Year q)
           ++ omitempty_string "context" (Context q)
           ++ [("tags", slice_json JString (Tags q)); ("lang", JString (Language q))]).

Definition MetadataSchema_json (s : MetadataSchema) : json :=
  JObject [("format", JString (Format s)); ("encoding", JString (Encoding s));
           ("filetype", JString (FileType s))].

Definition Metadata_json (m : Metadata) : json :=
  JObject [("version", JString (Version m)); ("lastUpdated", JString (LastUpdated m));
           ("totalQuotes", JNumber (TotalQuotes m)); ("url", JString (URL m));
           ("schema", MetadataSchema_json (Schema m))].

(** The zero value of [Quote] with the four fields the row loop sets. *)
Definition new_Quote (id : Z) (text : string) (tags : slice string) (lang : string) : Quote :=
  {| ID := id; Text := text; Author := ""; Year := 0; Context := "";
     Tags := tags; Language := lang |}.

(** The encoder on strings that need no escaping (used in examples). *)
Definition plain_encoder : StringEncoder := fun s => dquote +:+ s +:+ dquote.

(** ** The outside world

    The collaborators of the package: the spreadsheet library
    ([excelize.OpenFile], [GetSheetList], [GetRows], [Close]), the file
    system ([os.WriteFile]), the clock, the logger and standard output. *)

(** An opened workbook, as the package observes it. *)
Record File : Type := mkFile {
  GetSheetList : list string;
  GetRows : string -> list (list string) + error;
  Close : option error
}.

(** The calls to the collaborators that change or show something outside
    the program.  A log event holds the formatted message, without the
    time stamp that the [log] package puts in front of it. *)
Inductive Event : Type :=
  | EvOpenFile (name : string)
  | EvClose
  | EvWriteFile (name : string) (data : string)
  | EvLog (line : string)
  | EvPrintln (line : string).

(** [fs] is the content of the files; [write_error] tells for which paths
    [os.WriteFile] fails, and [write_reached] how far such a failing write
    got: nowhere when the file could not even be opened (the file system
    stays as it was), or, once the file was opened with [O_CREATE|O_TRUNC],
    the number of bytes written before the failure (the file is left
    created or truncated, holding that prefix of the data); [workbooks] is
    what [excelize.OpenFile] answers; [clock] is the current time already
    formatted by [time.RFC3339]; [trace] records the calls made to the
    collaborators, oldest first. *)
Record World : Type := mkWorld {
  fs : gmap string string;
  write_error : string -> option error;
  write_reached : string -> option nat;
  workbooks : string -> File + error;
  clock : string;
  trace : list Event
}.

Definition emit (e : Event) (w : World) : World :=
  {| fs := fs w; write_error := write_error w; write_reached := write_reached w;
     workbooks := workbooks w; clock := clock w; trace := trace w ++ [e] |}.

Definition store (name data : string) (w : World) : World :=
  {| fs := <[name := data]> (fs w); write_error := write_error w; write_reached := write_reached w;
     workbooks := workbooks w; clock := clock w; trace := trace w |}.

(** Effectful code is a state transformer over the world. *)
Definition M (A : Type) : Type := World -> A * World.

#[global] Instance M_ret : MRet M := fun A (a : A) w => (a, w).
#[global] Instance M_bind : MBind M :=
  fun A B (f : A -> M B) (m : M A) w => let (a, w') := m w in f a w'.

Definition log_Printf (line : string) : M unit :=
  fun w => (tt, emit (EvLog line) w).

Definition fmt_Println (line : string) : M unit :=
  fun w => (tt, emit (EvPrintln line) w).

(** [time.Now().Format(time.RFC3339)] *)
Definition time_Now_Format_RFC3339 : M string :=
  fun w => (clock w, w).

(** What a failing [os.WriteFile(name, data, ...)] leaves behind. *)
Definition store_reached (name data : string) (w : World) : World :=
  match write_reached w name with
  | None => w
  | Some n => store name (substring 0 n data) w
  end.

(** [os.WriteFile(name, data, 0644)]: opens [name] for writing, creating
    or truncating it, writes [data] and closes the file; an error of any
    of the three steps is returned. *)
Definition os_WriteFile (name data : string) : M (option error) :=
  fun w =>
    let w := emit (EvWriteFile name data) w in
    match write_error w name with
    | Some err => (Some err, store_reached name data w)
    | None => (None, store name data w)
    end.

Definition excelize_OpenFile (name : string) : M (File + error) :=
  fun w => (workbooks w name, emit (EvOpenFile name) w).

Definition file_Close (file : File) : M (option error) :=
  fun w => (Close file, emit EvClose w).

(** [OpenExcelFile] opens the Excel file (the same in both variants). *)
Definition OpenExcelFile (fileName : string) : M (File + error) :=
  r ← excelize_OpenFile fileName;
  match r with
  | inr err =>
      mret (inr (fmt_Errorf_w ("failed to open Excel file " +:+ fileName +:+ ": ") err))
  | inl file => mret (inl file)
  end.

(** [row[k]]; Go panics on an index out of range, which the length test of
    the loop excludes at both uses. *)
Definition cell (row : list string) (k : nat) : string := nth k row "".

(** The record built from row [i] by both variants of the loop. *)
Definition row_quote (i : Z) (row : list string) : Quote :=
  (* Process tags by removing spaces and splitting by commas *)
  let rawTags := strings_ReplaceAll (cell row 0) " "%char "" in
  let tags := strings_Split rawTags ","%char in
  {| ID := i;            (* int64(i): the conversion from int keeps the value *)
     Text := cell row 1;
     Author := ""; Year := 0; Context := "";
     Tags := Some tags;
     Language := "en-US" |}.

(** How the process ends: [main] returns, [panic(err)] unwinds it, or
    [os.Exit] (reached through [log.Fatalf]) stops it with a status. *)
Inductive ProcessEnd : Type :=
  | Finished
  | Panicked (err : error)
  | ExitStatus (code : Z).

(** ** The current pipeline: batches of 100, two output files *)
Module Batched.

(** [QuotesData] holds the quotes document. *)
Record QuotesData : Type := mkQuotesData {
  Quotes : slice Quote   (* `json:"quotes"` *)
}.

Definition QuotesData_json (d : QuotesData) : json :=
  JObject [("quotes", slice_json Quote_json (Quotes d))].

Section Pipeline.
Context {enc : StringEncoder}.

(** [WriteJSONToFile] saves the JSON data to a specified file. *)
Definition WriteJSONToFile (filename : string) (data : QuotesData) : M (option error) :=
  match json_MarshalIndent (QuotesData_json data) "" "  " with
  | inr err => mret (Some (fmt_Errorf_w "error marshalling JSON: " err))
  | inl jsonData =>
      err ← os_WriteFile filename jsonData;
      match err with
      | Some err => mret (Some (fmt_Errorf_w "error writing JSON to file: " err))
      | None => mret None
      end
  end.

(** The loop [for i, row := range rows] of [ReadExcelFile], from row
    index [i] on, with the loop variables [accumulatedQuotes] and
    [batch] as they stand before row [i]. *)
Fixpoint range_rows (batchSize : Z) (i : Z) (rows : list (list string))
    (accumulatedQuotes batch : slice Quote) : M (slice Quote * slice Quote) :=
  match rows with
  | [] => mret (accumulatedQuotes, batch)
  | row :: rows' =>
      if i =? 0 then
        (* Skip header row if present *)
        range_rows batchSize (i + 1) rows' accumulatedQuotes batch
      else if len row <? 2 then
        log_Printf ("Skipping row " +:+ strconv_Itoa i
                    +:+ " due to insufficient columns: " +:+ fmt_v_strings row);;
        range_rows batchSize (i + 1) rows' accumulatedQuotes batch
      else
        let quote := row_quote i row in
        (* Add quote to the current batch *)
        let batch := append batch quote in
        (* If batch size is reached, add the batch to the accumulated list *)
        if slice_len batch >=? batchSize then
          range_rows batchSize (i + 1) rows' (append_all accumulatedQuotes batch) nil_slice
        else
          range_rows batchSize (i + 1) rows' accumulatedQuotes batch
  end.

(** First half of [ReadExcelFile] after the rows are read: the row
    loop and the flush of the last incomplete batch. *)
Definition accumulate (rows : list (list string)) : M (slice Quote) :=
  let accumulatedQuotes := nil_slice in
  let batchSize := 100 in   (* Set your desired batch size *)
  '(accumulatedQuotes, batch) ← range_rows batchSize 0 rows accumulatedQuotes nil_slice;
  (* Add any remaining quotes from the last incomplete batch *)
  if slice_len batch >? 0 then mret (append_all accumulatedQuotes batch)
  else mret accumulatedQuotes.

(** The metadata for the accumulated quotes. *)
Definition new_Metadata (now : string) (accumulatedQuotes : slice Quote) : Metadata :=
  {| Version := "1.0";
     LastUpdated := now;
     TotalQuotes := slice_len accumulatedQuotes;
     URL := "path/to/file";
     Schema := {| Format := "JSON"; Encoding := "UTF-8"; FileType := "text" |} |}.

(** Second half of [ReadExcelFile]: metadata and the two writes. *)
Definition write_outputs (accumulatedQuotes : slice Quote) : M (option error) :=
  (* Create metadata for the accumulated quotes *)
  now ← time_Now_Format_RFC3339;
  let metadata := new_Metadata now accumulatedQuotes in
  let quotesData := {| Quotes := accumulatedQuotes |} in
  (* Write the accumulated quotes to a JSON file *)
  err ← WriteJSONToFile "quotes.json" quotesData;
  match err with
  | Some err =>
      log_Printf ("Error writing JSON to file: " +:+ Error err);;
      mret (Some err)
  | None =>
      (* converting metadata to json encoding *)
      match json_MarshalIndent (Metadata_json metadata) "" " " with
      | inr err => mret (Some (fmt_Errorf_v "error marshalling metadata to JSON: " err))
      | inl jsonMetadata =>
          (* writing metadata json file *)
          err ← os_WriteFile "quotesMetadata.json" jsonMetadata;
          match err with
          | Some err => mret (Some (fmt_Errorf_v "error writing metadata.json " err))
          | None =>
              fmt_Println "JSON data successfully written to quotes_output.json";;
              mret None
          end
      end
  end.

(** [ReadExcelFile] reads data from the first sheet, processes it in
    batches, and outputs accumulated JSON. *)
Definition ReadExcelFile (file : File) : M (option error) :=
  (* Get all sheet names *)
  match GetSheetList file with
  | [] => mret (Some (fmt_Errorf "no sheets found in the Excel file"))
  | sheetName :: _ =>
      (* Read all rows in the first sheet *)
      match GetRows file sheetName with
      | inr err => mret (Some (fmt_Errorf_w "unable to load cells: " err))
      | inl rows =>
          accumulatedQuotes ← accumulate rows;
          write_outputs accumulatedQuotes
      end
  end.

(** [ReadQuotesFromExcel] processes the Excel file and outputs JSON
    with quotes and metadata.  The deferred closure runs after the
    result of [ReadExcelFile] has been fixed as the return value. *)
Definition ReadQuotesFromExcel (fileNameValue : string) : M (option error) :=
  let fileName := fileNameValue in
  r ← OpenExcelFile fileName;
  match r with
  | inr err =>
      log_Printf ("Error opening Excel file: " +:+ Error err);;
      mret (Some err)
  | inl file =>
      result ← ReadExcelFile file;
      cerr ← file_Close file;
      match cerr with
      | Some err => log_Printf ("Error closing the Excel file: " +:+ Error err)
      | None => mret tt
      end;;
      mret result
  end.
(** [main] of package [main], linked with this variant of [utils]:
    reads quotes from the hard-coded workbook and converts them. *)
Definition main : World -> ProcessEnd * World :=
  let fileName := "quotes.xlsx" in
  fun w =>
    let (err, w) := ReadQuotesFromExcel fileName w in
    match err with
    | Some err => (Panicked err, w)
    | None => (Finished, w)
    end.
End Pipeline.
End Batched.

(** ** The older variant: no batches, one combined output file *)
Module Legacy.

(** [QuotesData] holds the entire JSON structure with quotes and metadata. *)
Record QuotesData : Type := mkQuotesData {
  Quotes : slice Quote;   (* `json:"quotes"` *)
  Metadata_ : Metadata    (* Metadata `json:"metadata"` *)
}.

Definition QuotesData_json (d : QuotesData) : json :=
  JObject [("quotes", slice_json Quote_json (Quotes d));
           ("metadata", Metadata_json (Metadata_ d))].

(** How a call ends: by returning its [error] result, or by terminating
    the process ([log.Fatalf] ends in [os.Exit(1)], which runs no
    deferred call). *)
Inductive Outcome : Type :=
  | Returned (err : option error)
  | Exited (code : Z).

(** The loop [for i, row := range rows] of [ReadExcelFile], from row
    index [i] on, with [quotes] as it stands before row [i]. *)
Fixpoint range_rows (i : Z) (rows : list (list string)) (quotes : slice Quote)
    : slice Quote :=
  match rows with
  | [] => quotes
  | row :: rows' =>
      if i =? 0 then
        (* Skip header row if present *)
        range_rows (i + 1) rows' quotes
      else if len row <? 2 then
        range_rows (i + 1) rows' quotes   (* Skip rows with insufficient columns *)
      else
        let quote := row_quote i row in
        range_rows (i + 1) rows' (append quotes quote)
  end.

Section Pipeline.
Context {enc : StringEncoder}.

(** [WriteJSONToFile] saves the JSON data to a specified file. *)
Definition WriteJSONToFile (filename : string) (data : QuotesData) : M (option error) :=
  match json_MarshalIndent (QuotesData_json data) "" "  " with
  | inr err => mret (Some (fmt_Errorf_w "error marshalling JSON: " err))
  | inl jsonData =>
      err ← os_WriteFile filename jsonData;
      match err with
      | Some err => mret (Some (fmt_Errorf_w "error writing JSON to file: " err))
      | None => mret None
      end
  end.

(** [ReadExcelFile] reads data from the first sheet, processes it, and
    outputs JSON. *)
Definition ReadExcelFile (file : File) : M (option error) :=
  match GetSheetList file with
  | [] => mret (Some (fmt_Errorf "no sheets found in the Excel file"))
  | sheetName :: _ =>
      match GetRows file sheetName with
      | inr err => mret (Some (fmt_Errorf_w "unable to load cells: " err))
      | inl rows =>
          let quotes := range_rows 0 rows nil_slice in
          now ← time_Now_Format_RFC3339;
          let metadata :=
            {| Version := "1.0";
               LastUpdated := now;
               TotalQuotes := slice_len quotes;
               URL := "path/to/file";
               Schema := {| Format := "JSON"; Encoding := "UTF-8";
                            FileType := "text" |} |} in
          let quotesData := {| Quotes := quotes; Metadata_ := metadata |} in
          err ← WriteJSONToFile "quotes_output.json" quotesData;
          match err with
          | Some err => mret (Some (fmt_Errorf_w "error writing JSON to file: " err))
          | None =>
              fmt_Println "JSON data successfully written to quotes_output.json";;
              mret None
          end
      end
  end.

(** [ReadQuotesFromExcel]: on a failed open, [log.Fatalf] logs and
    exits, so the [return err] after it is never reached; the result
    of the deferred [file.Close()] is dropped. *)
Definition ReadQuotesFromExcel (fileNameValue : string) : World -> Outcome * World :=
  let fileName := fileNameValue in
  fun w =>
    let (r, w) := OpenExcelFile fileName w in
    match r with
    | inr err =>
        let (_, w) := log_Printf ("Error opening Excel file: " +:+ Error err) w in
        (Exited 1, w)
    | inl file =>
        let (result, w) := ReadExcelFile file w in
        let (_, w) := file_Close file w in
        (Returned result, w)
    end.
(** [main] of package [main], linked with this variant of [utils]. *)
Definition main : World -> ProcessEnd * World :=
  let fileName := "quotes.xlsx" in
  fun w =>
    let (out, w) := ReadQuotesFromExcel fileName w in
    match out with
    | Exited code => (ExitStatus code, w)
    | Returned (Some err) => (Panicked err, w)
    | Returned None => (Finished, w)
    end.
End Pipeline.
End Legacy.

(** ** Reference description of the conversion

    The row normaliser as the specification words it, with no batching:
    going through the rows with their zero-based index, a row gives a
    record when its index is at least 1 and it has at least 2 cells. *)
Definition retained (i : nat) (row : list string) : bool :=
  (1 <=? i)%nat && (2 <=? length row)%nat.

Fixpoint records_from (i : nat) (rows : list (list string)) : list Quote :=
  match rows with
  | [] => []
  | row :: rows' =>
      (if retained i row then [row_quote (Z.of_nat i) row] else [])
      ++ records_from (S i) rows'
  end.

Definition records (rows : list (list string)) : list Quote := records_from 0 rows.

(** The slice a Go loop builds by appending the elements of [l] one by one
    to a nil slice: nil when nothing was appended. *)
Definition to_slice {A} (l : list A) : slice A :=
  match l with
  | [] => None
  | _ :: _ => Some l
  end.

(** [emits es w]: the world after the calls [es] that leave files alone. *)
Definition emits (es : list Event) (w : World) : World :=
  {| fs := fs w; write_error := write_error w; write_reached := write_reached w;
     workbooks := workbooks w; clock := clock w; trace := trace w ++ es |}.

Definition is_log (e : Event) : Prop := exists line, e = EvLog line.

(** A list of identifiers is contiguous when each one is the successor of
    the one before it. *)
Fixpoint contiguous (ids : list Z) : bool :=
  match ids with
  | a :: (b :: _) as ids' => (b =? a + 1) && contiguous ids'
  | _ => true
  end.

(** The 1-based sequential counter over [n] records: 1, 2, ..., n. *)
Definition counter (n : nat) : list Z := map Z.of_nat (seq 1 n).

(** Removing every space, as the specification words it: the bytes of
    [s] other than the space, in order. *)
Definition remove_spaces (s : string) : string :=
  string_of_list_ascii (filter (fun c => c <> " "%char) (list_ascii_of_string s)).

(** [has_byte c s]: the byte [c] occurs in [s]. *)
Definition has_byte (c : ascii) (s : string) : Prop :=
  c ∈ list_ascii_of_string s.

(** The bytes of the two documents of the current pipeline. *)
Definition quotes_document {enc : StringEncoder} (quotes : slice Quote) : string :=
  render "" "  " 0 (Batched.QuotesData_json {| Batched.Quotes := quotes |}).

Definition metadata_document {enc : StringEncoder} (m : Metadata) : string :=
  render "" " " 0 (Metadata_json m).

(** The combined document of the older variant. *)
Definition combined_document {enc : StringEncoder} (quotes : slice Quote) (m : Metadata)
  : string :=
  render "" "  " 0
    (Legacy.QuotesData_json {| Legacy.Quotes := quotes; Legacy.Metadata_ := m |}).

(** The log line of the current loop for a row with fewer than 2 cells. *)
Definition skip_line (i : nat) (row : list string) : Event :=
  EvLog ("Skipping row " +:+ strconv_Itoa (Z.of_nat i)
         +:+ " due to insufficient columns: " +:+ fmt_v_strings row).

(** The log lines of a pass over the rows from index [i] on: one for each
    row after the header that has fewer than 2 cells, in row order. *)
Fixpoint skip_lines (i : nat) (rows : list (list string)) : list Event :=
  match rows with
  | [] => []
  | row :: rows' =>
      (if (1 <=? i)%nat && negb (2 <=? length row)%nat then [skip_line i row] else [])
      ++ skip_lines (S i) rows'
  end.

(** The number of occurrences of the byte [c] in [s]. *)
Fixpoint count_byte (c : ascii) (s : string) : nat :=
  match s with
  | EmptyString => 0
  | String c' s' => (if Ascii.eqb c' c then 1 else 0) + count_byte c s'
  end.

(** The same world with other files. *)
Definition with_fs (files : gmap string string) (w : World) : World :=
  {| fs := files; write_error := write_error w; write_reached := write_reached w;
     workbooks := workbooks w; clock := clock w; trace := trace w |}.

(** ** Test data *)

(** The workbook of the package's tests: a header and three quotes. *)
Definition test_rows : list (list string) :=
  [ ["Tags"; "Quote"];
    ["inspiration,motivation"; "Test quote 1"];
    [""; "Test quote 2"];
    ["wisdom, life, philosophy"; "Test quote 3"] ].

(** A one-cell row after the last quote, and one between two quotes. *)
Definition rows_short_last : list (list string) :=
  [ ["Tags"; "Quote"]; ["a"; "q1"]; ["b"; "q2"]; ["only"] ].

Definition rows_short_middle : list (list string) :=
  [ ["Tags"; "Quote"]; ["a"; "q1"]; ["only"]; ["b"; "q2"] ].

(** Only a header and rows with fewer than 2 cells. *)
Definition rows_none_retained : list (list string) :=
  [ ["Tags"; "Quote"]; ["only"]; [] ].

Definition workbook (rows : list (list string)) : File :=
  {| GetSheetList := ["Sheet1"]; GetRows := fun _ => inl rows; Close := None |}.

(** A workbook without any sheet, and one whose rows cannot be read. *)
Definition workbook_no_sheets : File :=
  {| GetSheetList := []; GetRows := fun _ => inl []; Close := None |}.

Definition corrupt_sheet : error := ErrLeaf "XML syntax error on line 1".

Definition workbook_unreadable : File :=
  {| GetSheetList := ["Sheet1"]; GetRows := fun _ => inr corrupt_sheet; Close := None |}.

(** A workbook whose handle cannot be released. *)
Definition close_failure : error := ErrLeaf "close quotes.xlsx: input/output error".

Definition workbook_close_fails : File :=
  {| GetSheetList := ["Sheet1"]; GetRows := fun _ => inl test_rows;
     Close := Some close_failure |}.

(** [n] copies of a two-cell row under a header. *)
Definition many_rows (n : nat) : list (list string) :=
  ["Tags"; "Quote"] :: replicate n ["life"; "A quote"].

Definition disk_full : error := ErrLeaf "no space left on device".

Definition permission_denied : error :=
  ErrLeaf "open quotesMetadata.json: permission denied".

(** A world with no file, in which every write succeeds and the only
    workbook is [quotes.xlsx]. *)
Definition test_world : World :=
  {| fs := ∅;
     write_error := fun _ => None;
     write_reached := fun _ => None;
     workbooks := fun name =>
       if String.eqb name "quotes.xlsx" then inl (workbook test_rows)
       else inr (ErrLeaf ("open " +:+ name +:+ ": no such file or directory"));
     clock := "2024-05-01T10:00:00Z";
     trace := [] |}.

(** The same world, except that writing [name] fails with [err], either
    before the file is opened ([reached = None]) or after [n] bytes
    ([reached = Some n]). *)
Definition failing_write (name : string) (err : error) (reached : option nat) (w : World)
  : World :=
  {| fs := fs w;
     write_error := fun n => if String.eqb n name then Some err else write_error w n;
     write_reached := fun n => if String.eqb n name then reached else write_reached w n;
     workbooks := workbooks w; clock := clock w; trace := trace w |}.

(** The same world, except that opening [name] gives [file]. *)
Definition with_workbook (name : string) (file : File) (w : World) : World :=
  {| fs := fs w; write_error := write_error w; write_reached := write_reached w;
     workbooks := fun n => if String.eqb n name then inl file else workbooks w n;
     clock := clock w; trace := trace w |}.


(** * Properties *)

(** ** Strings *)

Lemma strings_ReplaceAll_remove_spaces s :
  strings_ReplaceAll s " "%char "" = remove_spaces s.
Proof.
  unfold remove_spaces. induction s as [|c s IH]; [done|].
  cbn [strings_ReplaceAll list_ascii_of_string]. rewrite filter_cons.
  destruct (Ascii.eqb_spec c " "%char) as [->|Hc].
  - rewrite decide_False by (intros H; by apply H). by rewrite IH.
  - rewrite decide_True by done. simpl. by rewrite IH.
Qed.

Lemma strings_Split_nonempty s sep : strings_Split s sep <> [].
Proof.
  destruct s as [|c s]; simpl; [done|].
  destruct (Ascii.eqb c sep); [done|]. by destruct (strings_Split s sep).
Qed.

Lemma strings_Join_cons x l sep :
  l <> [] -> strings_Join (x :: l) sep = x +:+ sep +:+ strings_Join l sep.
Proof. by destruct l. Qed.

(** Joining the pieces with the separator gives the string back. *)
Lemma strings_Join_Split s sep :
  strings_Join (strings_Split s sep) (String sep EmptyString) = s.
Proof.
  induction s as [|c s IH]; [done|]. cbn [strings_Split].
  destruct (Ascii.eqb_spec c sep) as [->|Hc].
  - rewrite strings_Join_cons by apply strings_Split_nonempty. by rewrite IH.
  - pose proof (strings_Split_nonempty s sep) as Hne.
    destruct (strings_Split s sep) as [|piece pieces]; [done|].
    destruct pieces as [|p ps]; simpl in *; by rewrite <- IH.
Qed.

(** No piece holds the separator. *)
Lemma strings_Split_no_sep s sep :
  Forall (fun piece => ~ has_byte sep piece) (strings_Split s sep).
Proof.
  unfold has_byte. induction s as [|c s IH]; cbn [strings_Split].
  - constructor; [|done]. simpl. by intros ?%elem_of_nil.
  - destruct (Ascii.eqb_spec c sep) as [->|Hc].
    + constructor; [|done]. simpl. by intros ?%elem_of_nil.
    + pose proof (strings_Split_nonempty s sep) as Hne.
      destruct (strings_Split s sep) as [|piece pieces]; [done|].
      apply Forall_cons in IH as [Hp Hps]. constructor; [|done].
      simpl. intros [?|?]%elem_of_cons; [congruence|done].
Qed.

(** A string without spaces is left as it is. *)
Lemma remove_spaces_no_space s : ~ has_byte " "%char (remove_spaces s).
Proof.
  unfold has_byte, remove_spaces. rewrite list_ascii_of_string_of_list_ascii.
  intros [H _]%list_elem_of_filter. by apply H.
Qed.

(** ** Slices *)

Lemma elems_append_all {A} (s t : slice A) :
  elems (append_all s t) = elems s ++ elems t.
Proof.
  unfold append_all. destruct (elems t) eqn:E; simpl.
  - by rewrite app_nil_r.
  - done.
Qed.

Lemma append_all_append {A} (s b : slice A) (q : A) (l : list A) :
  append_all (append_all s (append b q)) (Some l)
  = append_all (append_all s b) (Some (q :: l)).
Proof.
  unfold append_all at 3. simpl. rewrite elems_append_all.
  unfold append at 1. unfold append_all at 2. simpl.
  destruct (elems b ++ [q]) eqn:E.
  { by destruct (elems b). }
  rewrite <- E. destruct l as [|y l]; simpl.
  - by rewrite <- !app_assoc.
  - unfold append_all. simpl. by rewrite <- !app_assoc.
Qed.

Lemma append_all_nil_slice {A} (l : list A) : append_all nil_slice (Some l) = to_slice l.
Proof. by destruct l. Qed.

Lemma elems_to_slice {A} (l : list A) : elems (to_slice l) = l.
Proof. by destruct l. Qed.

(** ** Worlds *)

Lemma emits_nil w : emits [] w = w.
Proof. destruct w. unfold emits. simpl. by rewrite app_nil_r. Qed.

Lemma emit_emits e es w : emits es (emit e w) = emits (e :: es) w.
Proof. unfold emits, emit. simpl. by rewrite <- app_assoc. Qed.

(** A failing write adds no call and changes no file but its target. *)
Lemma trace_store_reached name data w :
  trace (store_reached name data w) = trace w.
Proof. unfold store_reached. by destruct (write_reached w name). Qed.

Lemma fs_store_reached name data w :
  fs (store_reached name data w)
  = match write_reached w name with
    | None => fs w
    | Some n => <[name := substring 0 n data]> (fs w)
    end.
Proof. unfold store_reached. by destruct (write_reached w name). Qed.

Lemma fs_store_reached_ne name name' data w :
  name' <> name -> fs (store_reached name data w) !! name' = fs w !! name'.
Proof.
  intros Hne. rewrite fs_store_reached. destruct (write_reached w name); [|done].
  by rewrite lookup_insert_ne.
Qed.

(** ** The two row loops against the reference description *)

Lemma len_lt_2 {A} (row : list A) : (len row <? 2) = negb (2 <=? length row)%nat.
Proof.
  unfold len. destruct (Z.ltb_spec (Z.of_nat (length row)) 2);
    destruct (Nat.leb_spec 2 (length row)); simpl; try done; lia.
Qed.

Lemma retained_0 row : retained 0 row = false.
Proof. reflexivity. Qed.

Lemma retained_S i row : retained (S i) row = (2 <=? length row)%nat.
Proof. reflexivity. Qed.

Lemma index_succ (i : nat) : Z.of_nat i + 1 = Z.of_nat (S i).
Proof. lia. Qed.

Lemma index_eqb_0 (i : nat) : (Z.of_nat (S i) =? 0) = false.
Proof. apply Z.eqb_neq. lia. Qed.

(** The older loop appends the reference records to [quotes]. *)
Lemma Legacy_range_rows_records rows : forall (i : nat) (quotes : slice Quote),
  Legacy.range_rows (Z.of_nat i) rows quotes
  = append_all quotes (Some (records_from i rows)).
Proof.
  induction rows as [|row rows IH]; intros i quotes.
  - done.
  - cbn [Legacy.range_rows records_from]. rewrite index_succ.
    destruct i as [|i].
    + change (Z.of_nat 0 =? 0) with true. cbn iota. rewrite retained_0. apply IH.
    + rewrite index_eqb_0, len_lt_2, retained_S.
      destruct (2 <=? length row)%nat; cbn [negb app].
      * rewrite IH. apply (append_all_append quotes (Some [])).
      * apply IH.
Qed.

(** The batched loop, for every batch size: flushing the final state gives
    what flushing the initial state and appending the reference records
    gives; the loop only adds log lines to the world. *)
Lemma Batched_range_rows_records batchSize rows :
  forall (i : nat) (acc batch : slice Quote) (w : World),
  exists acc' batch' logs,
    Batched.range_rows batchSize (Z.of_nat i) rows acc batch w
    = ((acc', batch'), emits logs w)
    /\ Forall is_log logs
    /\ append_all acc' batch'
       = append_all (append_all acc batch) (Some (records_from i rows)).
Proof.
  induction rows as [|row rows IH]; intros i acc batch w.
  - exists acc, batch, []. rewrite emits_nil. done.
  - cbn [Batched.range_rows records_from]. cbv zeta. rewrite index_succ.
    destruct i as [|i].
    { change (Z.of_nat 0 =? 0) with true. cbn iota. rewrite retained_0. apply IH. }
    rewrite index_eqb_0, len_lt_2, retained_S.
    destruct (2 <=? length row)%nat; cbn [negb app].
    + destruct (slice_len (append batch (row_quote (Z.of_nat (S i)) row)) >=? batchSize).
      * destruct (IH (S (S i)) (append_all acc (append batch (row_quote (Z.of_nat (S i)) row)))
                    nil_slice w) as (acc' & batch' & logs & -> & Hlogs & Heq).
        exists acc', batch', logs. split; [done|]. split; [done|].
        rewrite Heq. unfold nil_slice, append_all at 2. cbn [elems default].
        apply append_all_append.
      * destruct (IH (S (S i)) acc (append batch (row_quote (Z.of_nat (S i)) row)) w)
          as (acc' & batch' & logs & -> & Hlogs & Heq).
        exists acc', batch', logs. split; [done|]. split; [done|].
        rewrite Heq. apply append_all_append.
    + unfold mbind, M_bind, log_Printf.
      match goal with |- context [emit ?e w] => set (ev := e) end.
      destruct (IH (S (S i)) acc batch (emit ev w)) as (acc' & batch' & logs & -> & Hlogs & Heq).
      exists acc', batch', (ev :: logs). rewrite emit_emits.
      split; [done|]. split; [|done].
      constructor; [by eexists|done].
Qed.

(** The first half of the pipeline yields the reference records, as a
    slice that is nil when there is none, and leaves the files alone. *)
Lemma accumulate_records rows w :
  exists logs,
    Batched.accumulate rows w = (to_slice (records rows), emits logs w)
    /\ Forall is_log logs.
Proof.
  unfold Batched.accumulate, mbind, M_bind.
  destruct (Batched_range_rows_records 100 rows 0 nil_slice nil_slice w)
    as (acc' & batch' & logs & Hrun & Hlogs & Heq).
  change 0 with (Z.of_nat 0). rewrite Hrun. exists logs. split; [|done].
  change (append_all nil_slice nil_slice) with (@nil_slice Quote) in Heq.
  rewrite append_all_nil_slice in Heq. fold (records rows) in Heq.
  unfold mret, M_ret. rewrite <- Heq.
  unfold slice_len, len, append_all. by destruct (elems batch').
Qed.

(** ** The reference records *)

Lemma records_from_elem q rows : forall i : nat,
  q ∈ records_from i rows <->
  exists (k : nat) row,
    rows !! k = Some row /\ retained (i + k) row = true
    /\ q = row_quote (Z.of_nat (i + k)) row.
Proof.
  induction rows as [|row rows IH]; intros i; cbn [records_from].
  - split; [by intros ?%elem_of_nil | by intros (k & r & ? & _)].
  - rewrite elem_of_app, IH. split.
    + intros [Hq | (k & r & Hk & Hr & ->)].
      * destruct (retained i row) eqn:Hret; [|by apply elem_of_nil in Hq].
        apply list_elem_of_singleton in Hq as ->.
        exists 0%nat, row. by rewrite Nat.add_0_r.
      * exists (S k), r. by rewrite Nat.add_succ_r.
    + intros ([|k] & r & Hk & Hr & ->).
      * left. rewrite Nat.add_0_r in *. simpl in Hk. injection Hk as ->.
        rewrite Hr. by apply list_elem_of_singleton.
      * right. exists k, r. by rewrite Nat.add_succ_r in *.
Qed.

Lemma records_elem q rows :
  q ∈ records rows <->
  exists (i : nat) row,
    rows !! i = Some row /\ retained i row = true /\ q = row_quote (Z.of_nat i) row.
Proof. apply (records_from_elem q rows 0). Qed.

Lemma retained_true i row :
  retained i row = true <-> (1 <= i)%nat /\ (2 <= length row)%nat.
Proof.
  unfold retained. rewrite andb_true_iff, !Nat.leb_le. done.
Qed.

Lemma records_from_ids_ge rows (i : nat) :
  Forall (fun id => Z.of_nat i <= id) (map ID (records_from i rows)).
Proof.
  apply Forall_forall. intros id (q & -> & Hq)%list_elem_of_fmap.
  apply records_from_elem in Hq as (k & row & _ & _ & ->). simpl. lia.
Qed.

(** The identifiers come out in strictly increasing order: the records
    keep the order of the rows and no row gives two records. *)
Lemma records_from_ids_sorted rows : forall i : nat,
  StronglySorted Z.lt (map ID (records_from i rows)).
Proof.
  induction rows as [|row rows IH]; intros i; cbn [records_from].
  - constructor.
  - destruct (retained i row); cbn [app map]; [|apply IH].
    constructor; [apply IH|].
    eapply Forall_impl; [apply (records_from_ids_ge rows (S i))|].
    simpl. intros; lia.
Qed.

(** When the identifiers form the run [i, i+1, ..., i+n-1], none of the
    first [n] rows was left out. *)
Lemma records_from_run rows : forall (i n : nat),
  map ID (records_from i rows) = map Z.of_nat (seq i n) ->
  forall (k : nat) row, (k < n)%nat -> rows !! k = Some row ->
  retained (i + k) row = true.
Proof.
  induction rows as [|row rows IH]; intros i n Hrun k r Hk Hr; [done|].
  cbn [records_from] in Hrun.
  destruct (retained i row) eqn:Hret.
  - destruct n as [|n]; [done|]. cbn [app map seq] in Hrun.
    injection Hrun as Hrun.
    destruct k as [|k]; simpl in Hr.
    + injection Hr as <-. by rewrite Nat.add_0_r.
    + rewrite Nat.add_succ_r. apply (IH (S i) n Hrun k r); [lia|done].
  - destruct n as [|n]; [lia|]. cbn [app map seq] in Hrun.
    pose proof (records_from_ids_ge rows (S i)) as Hge.
    rewrite Hrun in Hge. apply Forall_cons in Hge as [Hge _]. lia.
Qed.

Lemma strings_Split_bytes s sep :
  Forall (fun piece => forall c, has_byte c piece -> has_byte c s) (strings_Split s sep).
Proof.
  unfold has_byte. induction s as [|c s IH]; cbn [strings_Split].
  - by constructor.
  - destruct (Ascii.eqb_spec c sep) as [->|Hc].
    + constructor; [by intros c ?%elem_of_nil|].
      eapply Forall_impl; [exact IH|]. simpl. intros p Hp c' Hc'. right. by apply Hp.
    + pose proof (strings_Split_nonempty s sep) as Hne.
      destruct (strings_Split s sep) as [|piece pieces]; [done|].
      apply Forall_cons in IH as [Hp Hps]. constructor.
      * simpl. intros c' [->|Hc']%elem_of_cons; [by left|right; by apply Hp].
      * eapply Forall_impl; [exact Hps|]. simpl. intros p Hp' c' Hc'.
        right. by apply Hp'.
Qed.

(** The accumulated records of the pipeline are the reference records. *)
Lemma accumulate_elems rows w :
  elems (Batched.accumulate rows w).1 = records rows.
Proof.
  destruct (accumulate_records rows w) as (logs & -> & _).
  apply elems_to_slice.
Qed.

(** ** Claims on the row loop *)

(** The batch size has no effect on what the loop and the final flush
    accumulate (a size of 0 or less flushes after every record). *)
Lemma batch_size_irrelevant (batchSize : Z) (rows : list (list string)) (w : World) :
  let '(accumulatedQuotes, batch) :=
    (Batched.range_rows batchSize 0 rows nil_slice nil_slice w).1 in
  append_all accumulatedQuotes batch = Legacy.range_rows 0 rows nil_slice.
Proof.
  destruct (Batched_range_rows_records batchSize rows 0 nil_slice nil_slice w)
    as (acc' & batch' & logs & Hrun & _ & Heq).
  change 0 with (Z.of_nat 0). rewrite Hrun. cbn [fst].
  by rewrite Heq, Legacy_range_rows_records.
Qed.

(** C1.  For every row sequence, the batched accumulation of the current
    pipeline (batches of 100 appended to the accumulated slice when full,
    then the last incomplete batch) yields exactly the slice that the
    unbatched loop of the older variant builds row by row: same records,
    same order, and nil in the same cases. *)
Theorem batching_is_identity (rows : list (list string)) (w : World) :
  (Batched.accumulate rows w).1 = Legacy.range_rows 0 rows nil_slice.
Proof.
  destruct (accumulate_records rows w) as (logs & -> & _). simpl.
  change 0 with (Z.of_nat 0). rewrite Legacy_range_rows_records.
  symmetry. apply append_all_nil_slice.
Qed.

(** C3.  A row yields a record iff its zero-based index is at least 1 and
    it has at least 2 cells; every record comes from such a row; and the
    records keep the order of the rows (their identifiers, which are the
    row indices, are strictly increasing). *)
Theorem row_retained_iff (rows : list (list string)) (w : World) :
  let out := elems (Batched.accumulate rows w).1 in
  (forall (i : nat) row, rows !! i = Some row ->
     (row_quote (Z.of_nat i) row ∈ out <-> (1 <= i)%nat /\ (2 <= length row)%nat))
  /\ (forall q, q ∈ out ->
        exists (i : nat) row, rows !! i = Some row /\ q = row_quote (Z.of_nat i) row)
  /\ StronglySorted Z.lt (map ID out)
  /\ out = records rows.
Proof.
  cbv zeta. rewrite accumulate_elems.
  split; [|split; [|split; [apply records_from_ids_sorted|done]]].
  - intros i row Hi. rewrite <- retained_true. split.
    + intros (i' & row' & Hi' & Hret & Heq)%records_elem.
      assert (i' = i) as -> by (apply (f_equal ID) in Heq; simpl in Heq; lia).
      congruence.
    + intros Hret. apply records_elem. by exists i, row.
  - intros q (i & row & Hi & _ & ->)%records_elem. eauto.
Qed.

(** C3, at the second row of the test workbook. *)
Lemma row_retained_iff_witness :
  row_quote 1 ["inspiration,motivation"; "Test quote 1"]
  ∈ elems (Batched.accumulate test_rows test_world).1.
Proof.
  apply (proj1 (row_retained_iff test_rows test_world) 1%nat
           ["inspiration,motivation"; "Test quote 1"]).
  - reflexivity.
  - simpl. lia.
Defined.

(** C2 as stated fails when the short row comes after the last retained
    row: a row is skipped for having fewer than 2 cells, and the
    identifiers are 1, 2, which is contiguous (and is the 1-based counter
    over the retained rows). *)
Lemma skipped_last_row_ids_contiguous :
  (rows_short_last !! 3%nat = Some ["only"] /\ (length ["only"] < 2)%nat)
  /\ map ID (elems (Batched.accumulate rows_short_last test_world).1) = [1; 2]
  /\ contiguous (map ID (elems (Batched.accumulate rows_short_last test_world).1)) = true
  /\ map ID (elems (Batched.accumulate rows_short_last test_world).1) = counter 2.
Proof. repeat split; simpl; lia. Qed.

(** C2, amended.  The identifier of a record is the zero-based index of
    its source row in the full row set, header included.  Consequently,
    when a row is skipped for having fewer than 2 cells and some later row
    is retained, the identifiers are not the run 1, 2, ..., n of a 1-based
    counter over the retained rows. *)
Theorem record_id_is_row_index (rows : list (list string)) (w : World) :
  let out := elems (Batched.accumulate rows w).1 in
  (forall (i : nat) row, rows !! i = Some row -> (1 <= i)%nat -> (2 <= length row)%nat ->
     exists q, q ∈ out /\ ID q = Z.of_nat i /\ q = row_quote (Z.of_nat i) row)
  /\ (forall q, q ∈ out ->
        exists (i : nat) row,
          rows !! i = Some row /\ (1 <= i)%nat /\ (2 <= length row)%nat
          /\ ID q = Z.of_nat i /\ q = row_quote (Z.of_nat i) row)
  /\ (forall (j j' : nat) row row',
        rows !! j = Some row -> (1 <= j)%nat -> (length row < 2)%nat ->
        rows !! j' = Some row' -> (j < j')%nat -> (2 <= length row')%nat ->
        map ID out <> counter (length out)).
Proof.
  cbv zeta. rewrite accumulate_elems. split; [|split].
  - intros i row Hi H1 H2. exists (row_quote (Z.of_nat i) row).
    split; [|done]. apply records_elem. exists i, row. by rewrite retained_true.
  - intros q (i & row & Hi & [? ?]%retained_true & ->)%records_elem.
    by exists i, row.
  - intros j j' row row' Hj Hj1 Hshort Hj' Hlt Hlong Hrun.
    destruct rows as [|header rows]; [done|].
    destruct j as [|j]; [lia|]. destruct j' as [|j']; [lia|]. simpl in Hj, Hj'.
    unfold records, counter in Hrun. cbn [records_from] in Hrun.
    rewrite retained_0 in Hrun. cbn [app] in Hrun.
    (* the record of row [j'] is in the output, so [j'] is at most [n] *)
    assert (Hin : Z.of_nat (S j') ∈ map ID (records_from 1 rows)).
    { apply list_elem_of_fmap. exists (row_quote (Z.of_nat (S j')) row').
      split; [done|]. apply records_from_elem. exists j', row'.
      split; [done|]. split; [|done]. apply retained_true. lia. }
    rewrite Hrun in Hin. apply list_elem_of_fmap in Hin as (m & Hm & Hseq).
    apply elem_of_seq in Hseq.
    (* so row [j], before it, was retained as well *)
    assert (Hret : retained (1 + j) row = true).
    { eapply records_from_run; [exact Hrun| |exact Hj]. lia. }
    apply retained_true in Hret. lia.
Qed.

(** C2 (amended), on a workbook with a one-cell row between two quotes:
    the second quote has identifier 3, and the identifiers are not 1, 2. *)
Lemma record_id_is_row_index_witness :
  (exists q, q ∈ elems (Batched.accumulate rows_short_middle test_world).1
             /\ ID q = 3 /\ q = row_quote 3 ["b"; "q2"])
  /\ map ID (elems (Batched.accumulate rows_short_middle test_world).1)
     <> counter (length (elems (Batched.accumulate rows_short_middle test_world).1)).
Proof.
  pose proof (record_id_is_row_index rows_short_middle test_world) as (H1 & _ & H3).
  split.
  - apply (H1 3%nat ["b"; "q2"]); [reflexivity | lia | simpl; lia].
  - apply (H3 2%nat 3%nat ["only"] ["b"; "q2"]);
      [reflexivity | lia | simpl; lia | reflexivity | lia | simpl; lia].
Defined.

(** C4.  The tags of a record are cell 0 of its row with every space
    removed, split on the comma: the pieces joined by commas give that
    string back, no piece holds a comma or a space, and there is always at
    least one piece (the empty cell gives the one empty tag).  The text is
    cell 1 as it is and the language is ["en-US"]. *)
Theorem tags_text_language (rows : list (list string)) (w : World) :
  let out := elems (Batched.accumulate rows w).1 in
  (forall q, q ∈ out ->
     exists (i : nat) row tags,
       rows !! i = Some row /\ (2 <= length row)%nat /\ ID q = Z.of_nat i
       /\ Tags q = Some tags
       /\ tags = strings_Split (strings_ReplaceAll (cell row 0) " "%char "") ","%char
       /\ strings_Join tags "," = remove_spaces (cell row 0)
       /\ Forall (fun t => ~ has_byte ","%char t /\ ~ has_byte " "%char t) tags
       /\ tags <> []
       /\ Text q = cell row 1
       /\ Language q = "en-US")
  /\ Tags (row_quote 1 ["inspiration, motivation"; "Test quote"])
     = Some ["inspiration"; "motivation"]
  /\ Tags (row_quote 2 [""; "Test quote"]) = Some [""].
Proof.
  cbv zeta. rewrite accumulate_elems. split; [|done].
  intros q (i & row & Hi & [_ Hlen]%retained_true & ->)%records_elem.
  exists i, row, (strings_Split (strings_ReplaceAll (cell row 0) " "%char "") ","%char).
  repeat (split; [done|]).
  rewrite strings_ReplaceAll_remove_spaces.
  split; [apply strings_Join_Split|].
  split; [|split; [apply strings_Split_nonempty|done]].
  pose proof (strings_Split_no_sep (remove_spaces (cell row 0)) ","%char) as Hsep.
  pose proof (strings_Split_bytes (remove_spaces (cell row 0)) ","%char) as Hsub.
  rewrite Forall_forall in Hsep, Hsub. apply Forall_forall. intros t Ht.
  split; [by apply Hsep|].
  intros Hsp%(Hsub t Ht). by apply remove_spaces_no_space in Hsp.
Qed.

(** C4, at the last row of the test workbook. *)
Lemma tags_text_language_witness :
  exists (i : nat) row tags,
    test_rows !! i = Some row /\ (2 <= length row)%nat
    /\ ID (row_quote 3 ["wisdom, life, philosophy"; "Test quote 3"]) = Z.of_nat i
    /\ Tags (row_quote 3 ["wisdom, life, philosophy"; "Test quote 3"]) = Some tags
    /\ tags = ["wisdom"; "life"; "philosophy"]
    /\ Text (row_quote 3 ["wisdom, life, philosophy"; "Test quote 3"]) = "Test quote 3".
Proof.
  destruct (proj1 (tags_text_language test_rows test_world)
              (row_quote 3 ["wisdom, life, philosophy"; "Test quote 3"]))
    as (i & row & tags & Hi & Hlen & Hid & Htags & Hsplit & _ & _ & _ & Htext & _).
  - vm_compute. do 2 right. left.
  - exists i, row, tags. simpl in Hid.
    assert (i = 3%nat) as -> by lia. simpl in Hi. injection Hi as <-.
    repeat split; done.
Defined.

(** ** The pipeline as a whole *)

Section PipelineProperties.
Context {enc : StringEncoder}.

(** The three ways the second half of [ReadExcelFile] can end. *)
Lemma write_outputs_cases (quotes : slice Quote) (w : World) :
  let qdoc := quotes_document quotes in
  let mdoc := metadata_document (Batched.new_Metadata (clock w) quotes) in
  Batched.write_outputs quotes w =
  match write_error w "quotes.json" with
  | Some err =>
      let e := fmt_Errorf_w "error writing JSON to file: " err in
      (Some e,
       emit (EvLog ("Error writing JSON to file: " +:+ Error e))
         (store_reached "quotes.json" qdoc (emit (EvWriteFile "quotes.json" qdoc) w)))
  | None =>
      let w1 := store "quotes.json" qdoc (emit (EvWriteFile "quotes.json" qdoc) w) in
      match write_error w "quotesMetadata.json" with
      | Some err =>
          (Some (fmt_Errorf_v "error writing metadata.json " err),
           store_reached "quotesMetadata.json" mdoc
             (emit (EvWriteFile "quotesMetadata.json" mdoc) w1))
      | None =>
          (None,
           emit (EvPrintln "JSON data successfully written to quotes_output.json")
             (store "quotesMetadata.json" mdoc
                (emit (EvWriteFile "quotesMetadata.json" mdoc) w1)))
      end
  end.
Proof.
  cbv zeta.
  unfold Batched.write_outputs, Batched.WriteJSONToFile, json_MarshalIndent,
    os_WriteFile, time_Now_Format_RFC3339, log_Printf, fmt_Println,
    mbind, M_bind, mret, M_ret.
  cbn [write_error emit store clock].
  destruct (write_error w "quotes.json") as [err|]; [done|].
  cbn [write_error emit store clock].
  by destruct (write_error w "quotesMetadata.json").
Qed.

(** With a first sheet whose rows can be read, [ReadExcelFile] writes
    the reference records, after the log lines of the skipped rows. *)
Lemma ReadExcelFile_rows (file : File) sheetName others rows (w : World) :
  GetSheetList file = sheetName :: others ->
  GetRows file sheetName = inl rows ->
  exists logs,
    Forall is_log logs
    /\ Batched.ReadExcelFile file w
       = Batched.write_outputs (to_slice (records rows)) (emits logs w).
Proof.
  intros Hsheets Hrows. unfold Batched.ReadExcelFile. rewrite Hsheets, Hrows.
  destruct (accumulate_records rows w) as (logs & Hacc & Hlogs).
  exists logs. split; [done|]. unfold mbind, M_bind. by rewrite Hacc.
Qed.
End PipelineProperties.

Section PipelineClaims.
Context {enc : StringEncoder}.

(** What a successful run has done: the rows of the first sheet were
    read, both writes went through, and the final world holds the two
    documents built from the reference records. *)
Lemma ReadExcelFile_success (file : File) (w w' : World) :
  Batched.ReadExcelFile file w = (None, w') ->
  exists sheetName others rows logs,
    GetSheetList file = sheetName :: others
    /\ GetRows file sheetName = inl rows
    /\ Forall is_log logs
    /\ let quotes := to_slice (records rows) in
       let qdoc := quotes_document quotes in
       let mdoc := metadata_document (Batched.new_Metadata (clock w) quotes) in
       w' = emit (EvPrintln "JSON data successfully written to quotes_output.json")
              (store "quotesMetadata.json" mdoc
                 (emit (EvWriteFile "quotesMetadata.json" mdoc)
                    (store "quotes.json" qdoc
                       (emit (EvWriteFile "quotes.json" qdoc) (emits logs w))))).
Proof.
  intros Hrun.
  destruct (GetSheetList file) as [|sheetName others] eqn:Hsheets.
  { unfold Batched.ReadExcelFile in Hrun. by rewrite Hsheets in Hrun. }
  destruct (GetRows file sheetName) as [rows|err] eqn:Hrows.
  2: { unfold Batched.ReadExcelFile in Hrun. by rewrite Hsheets, Hrows in Hrun. }
  destruct (ReadExcelFile_rows file sheetName others rows w Hsheets Hrows)
    as (logs & Hlogs & Heq).
  rewrite Heq, write_outputs_cases in Hrun. cbv zeta in Hrun.
  exists sheetName, others, rows, logs. repeat (split; [done|]). cbv zeta.
  cbn [write_error emits clock] in Hrun.
  destruct (write_error w "quotes.json"); [done|].
  destruct (write_error w "quotesMetadata.json"); [done|].
  by injection Hrun as <-.
Qed.

Lemma fs_after_success (qdoc mdoc line : string) (w : World) :
  let w' := emit (EvPrintln line)
              (store "quotesMetadata.json" mdoc
                 (emit (EvWriteFile "quotesMetadata.json" mdoc)
                    (store "quotes.json" qdoc
                       (emit (EvWriteFile "quotes.json" qdoc) w)))) in
  fs w' !! "quotes.json" = Some qdoc /\ fs w' !! "quotesMetadata.json" = Some mdoc.
Proof.
  cbn. split.
  - rewrite lookup_insert_ne by done. apply lookup_insert_eq.
  - apply lookup_insert_eq.
Qed.

(** C5.  After a successful conversion, the metadata file holds the
    encoding of a metadata value with version ["1.0"], url
    ["path/to/file"], schema [{JSON, UTF-8, text}], the time of the run,
    and a total equal to the number of records of the quotes file. *)
Theorem metadata_matches_quotes (file : File) (w w' : World) :
  Batched.ReadExcelFile file w = (None, w') ->
  exists (quotes : slice Quote) (m : Metadata),
    fs w' !! "quotes.json" = Some (quotes_document quotes)
    /\ fs w' !! "quotesMetadata.json" = Some (metadata_document m)
    /\ Version m = "1.0"
    /\ URL m = "path/to/file"
    /\ Schema m = {| Format := "JSON"; Encoding := "UTF-8"; FileType := "text" |}
    /\ LastUpdated m = clock w
    /\ TotalQuotes m = Z.of_nat (length (elems quotes)).
Proof.
  intros (sheetName & others & rows & logs & _ & _ & _ & ->)%ReadExcelFile_success.
  exists (to_slice (records rows)),
    (Batched.new_Metadata (clock w) (to_slice (records rows))).
  pose proof (fs_after_success
                (quotes_document (to_slice (records rows)))
                (metadata_document
                   (Batched.new_Metadata (clock w) (to_slice (records rows))))
                "JSON data successfully written to quotes_output.json"
                (emits logs w)) as [Hq Hm].
  by repeat split.
Qed.
(** C7.  With no sheet the pipeline returns the no-sheets error, and
    when the rows of the first sheet cannot be read it returns the
    row-read error wrapping the cause; in both cases the world is left
    exactly as it was: no write was attempted and no file changed. *)
Theorem early_errors_write_nothing (file : File) (w : World) :
  (GetSheetList file = [] ->
   Batched.ReadExcelFile file w
   = (Some (fmt_Errorf "no sheets found in the Excel file"), w))
  /\ (forall sheetName others err,
        GetSheetList file = sheetName :: others ->
        GetRows file sheetName = inr err ->
        Batched.ReadExcelFile file w
        = (Some (fmt_Errorf_w "unable to load cells: " err), w)
        /\ Unwrap (fmt_Errorf_w "unable to load cells: " err) = Some err).
Proof.
  unfold Batched.ReadExcelFile. split.
  - by intros ->.
  - by intros sheetName others err -> ->.
Qed.

(** C8.  [ReadQuotesFromExcel] returns the open error when the workbook
    cannot be opened (no handle, nothing to release).  Otherwise it
    returns the result of [ReadExcelFile], whatever it is, and releases
    the handle once, after the pipeline; a failing release adds a log
    line and nothing else. *)
Theorem ReadQuotesFromExcel_releases_handle (fileName : string) (w : World) :
  match workbooks w fileName with
  | inr err =>
      let e := fmt_Errorf_w ("failed to open Excel file " +:+ fileName +:+ ": ") err in
      Batched.ReadQuotesFromExcel fileName w
      = (Some e,
         emits [EvOpenFile fileName; EvLog ("Error opening Excel file: " +:+ Error e)] w)
  | inl file =>
      let r := Batched.ReadExcelFile file (emit (EvOpenFile fileName) w) in
      Batched.ReadQuotesFromExcel fileName w
      = (r.1,
         emits (EvClose ::
                match Close file with
                | Some cerr => [EvLog ("Error closing the Excel file: " +:+ Error cerr)]
                | None => []
                end) r.2)
  end.
Proof.
  unfold Batched.ReadQuotesFromExcel, OpenExcelFile, excelize_OpenFile, file_Close,
    log_Printf, mbind, M_bind, mret, M_ret.
  destruct (workbooks w fileName) as [file|err]; cbv zeta.
  - destruct (Batched.ReadExcelFile file (emit (EvOpenFile fileName) w)) as [res w1].
    cbn [fst snd]. destruct (Close file) as [cerr|].
    + f_equal. unfold emits, emit. cbn. by rewrite <- app_assoc.
    + f_equal.
  - f_equal. unfold emits, emit. cbn. by rewrite <- app_assoc.
Qed.

(** C8 on the older variant.  Opening [nonexistent.xlsx] fails; the
    older [ReadQuotesFromExcel] logs the open error and terminates the
    process with status 1, so it returns nothing to its caller, while the
    current one returns the open error.  And when the release of the
    handle fails, the older variant drops the failure without a log line
    (the result itself is the one of [ReadExcelFile] in both variants). *)
Theorem Legacy_ReadQuotesFromExcel_exits_on_open_failure :
  let e := fmt_Errorf_w "failed to open Excel file nonexistent.xlsx: "
             (ErrLeaf "open nonexistent.xlsx: no such file or directory") in
  let old := Legacy.ReadQuotesFromExcel "nonexistent.xlsx" test_world in
  let new := Batched.ReadQuotesFromExcel "nonexistent.xlsx" test_world in
  let w := with_workbook "quotes.xlsx" workbook_close_fails test_world in
  let old_close := Legacy.ReadQuotesFromExcel "quotes.xlsx" w in
  let new_close := Batched.ReadQuotesFromExcel "quotes.xlsx" w in
  old.1 = Legacy.Exited 1
  /\ (forall result, old.1 <> Legacy.Returned result)
  /\ trace old.2 = [EvOpenFile "nonexistent.xlsx";
                    EvLog ("Error opening Excel file: " +:+ Error e)]
  /\ new.1 = Some e
  /\ old_close.1 = Legacy.Returned None
  /\ last (trace old_close.2) = Some EvClose
  /\ new_close.1 = None
  /\ last (trace new_close.2)
     = Some (EvLog ("Error closing the Excel file: " +:+ Error close_failure)).
Proof.
  cbv zeta. repeat split; try reflexivity. by intros result.
Qed.

(** When the quotes file is written and the metadata write fails, the
    quotes file stays as written; the metadata file is as it was before
    the run when the write failed before the file was opened, and holds
    what the write reached otherwise; the returned error is built with
    [%v]. *)
Lemma metadata_write_failure (file : File) sheetName others rows err (w : World) :
  GetSheetList file = sheetName :: others ->
  GetRows file sheetName = inl rows ->
  write_error w "quotes.json" = None ->
  write_error w "quotesMetadata.json" = Some err ->
  let quotes := to_slice (records rows) in
  let written := <["quotes.json" := quotes_document quotes]> (fs w) in
  exists w',
    Batched.ReadExcelFile file w
    = (Some (fmt_Errorf_v "error writing metadata.json " err), w')
    /\ fs w'
       = match write_reached w "quotesMetadata.json" with
         | None => written
         | Some n =>
             <["quotesMetadata.json" :=
                 substring 0 n (metadata_document (Batched.new_Metadata (clock w) quotes))]>
               written
         end.
Proof.
  intros Hsheets Hrows Hq Hm. cbv zeta.
  destruct (ReadExcelFile_rows file sheetName others rows w Hsheets Hrows)
    as (logs & Hlogs & ->).
  rewrite write_outputs_cases. cbv zeta. cbn [write_error emits clock].
  rewrite Hq, Hm. eexists. split; [reflexivity|].
  rewrite fs_store_reached. cbn. by destruct (write_reached w "quotesMetadata.json").
Qed.

(** When the quotes write itself fails, the returned error wraps the
    cause, and no file changes except that the quotes file holds what the
    write reached, if it was opened at all. *)
Lemma quotes_write_failure (file : File) sheetName others rows err (w : World) :
  GetSheetList file = sheetName :: others ->
  GetRows file sheetName = inl rows ->
  write_error w "quotes.json" = Some err ->
  exists w',
    Batched.ReadExcelFile file w
    = (Some (fmt_Errorf_w "error writing JSON to file: " err), w')
    /\ fs w'
       = match write_reached w "quotes.json" with
         | None => fs w
         | Some n =>
             <["quotes.json" :=
                 substring 0 n (quotes_document (to_slice (records rows)))]> (fs w)
         end.
Proof.
  intros Hsheets Hrows Hq.
  destruct (ReadExcelFile_rows file sheetName others rows w Hsheets Hrows)
    as (logs & Hlogs & ->).
  rewrite write_outputs_cases. cbv zeta. cbn [write_error emits].
  rewrite Hq. eexists. split; [reflexivity|].
  cbn [emit fs]. rewrite fs_store_reached. cbn.
  by destruct (write_reached w "quotes.json").
Qed.

(** C6.  On the test workbook, in a world where writing
    [quotesMetadata.json] fails with [disk_full] once the file has been
    created: the quotes file is written and stays, the metadata file is
    left empty, and the pipeline returns an error whose message ends with
    the text of [disk_full] but which does not wrap it ([Unwrap] gives
    nothing).  When that write fails with [permission_denied] before the
    file is opened, the quotes file is written and the metadata file is
    absent; the error does not wrap the failure either.  When it is the
    quotes write that fails, the returned error does wrap the cause. *)
Theorem metadata_write_error_not_wrapped :
  let run := Batched.ReadExcelFile (workbook test_rows)
               (failing_write "quotesMetadata.json" disk_full (Some 0%nat) test_world) in
  let run_open := Batched.ReadExcelFile (workbook test_rows)
                    (failing_write "quotesMetadata.json" permission_denied None
                       test_world) in
  let run' := Batched.ReadExcelFile (workbook test_rows)
                (failing_write "quotes.json" disk_full (Some 0%nat) test_world) in
  (exists e,
      run.1 = Some e
      /\ Error e = "error writing metadata.json no space left on device"
      /\ Unwrap e = None
      /\ ~ in_chain disk_full e)
  /\ fs run.2 !! "quotes.json" = Some (quotes_document (to_slice (records test_rows)))
  /\ fs run.2 !! "quotesMetadata.json" = Some ""
  /\ (exists e,
        run_open.1 = Some e
        /\ Error e = "error writing metadata.json open quotesMetadata.json: permission denied"
        /\ Unwrap e = None
        /\ ~ in_chain permission_denied e)
  /\ fs run_open.2 !! "quotes.json" = Some (quotes_document (to_slice (records test_rows)))
  /\ fs run_open.2 !! "quotesMetadata.json" = None
  /\ (exists e', run'.1 = Some e' /\ Unwrap e' = Some disk_full /\ in_chain disk_full e').
Proof.
  cbv zeta.
  destruct (metadata_write_failure (workbook test_rows) "Sheet1" [] test_rows disk_full
              (failing_write "quotesMetadata.json" disk_full (Some 0%nat) test_world))
    as (w1 & -> & Hfs1); try reflexivity.
  destruct (metadata_write_failure (workbook test_rows) "Sheet1" [] test_rows
              permission_denied
              (failing_write "quotesMetadata.json" permission_denied None test_world))
    as (w2 & -> & Hfs2); try reflexivity.
  destruct (quotes_write_failure (workbook test_rows) "Sheet1" [] test_rows disk_full
              (failing_write "quotes.json" disk_full (Some 0%nat) test_world))
    as (w3 & -> & _); try reflexivity.
  cbn [fst snd]. rewrite Hfs1, Hfs2. clear Hfs1 Hfs2.
  split; [|split; [|split; [|split; [|split; [|split]]]]].
  - eexists. split; [reflexivity|]. split; [reflexivity|]. split; [reflexivity|].
    simpl. intros [?|[]]. discriminate.
  - cbn. rewrite lookup_insert_ne by done. apply lookup_insert_eq.
  - cbn. apply lookup_insert_eq.
  - eexists. split; [reflexivity|]. split; [reflexivity|]. split; [reflexivity|].
    simpl. intros [?|[]]. discriminate.
  - cbn. apply lookup_insert_eq.
  - cbn. by rewrite lookup_insert_ne.
  - eexists. split; [reflexivity|]. split; [reflexivity|]. simpl. by right; left.
Qed.


(** C10.  When no row is retained, the accumulated slice is nil, the
    quotes document is the object whose [quotes] member is [null], and
    after a successful run the metadata file holds a metadata value
    whose total is 0. *)
Theorem no_retained_row_gives_null (rows : list (list string)) :
  (forall (i : nat) row, rows !! i = Some row -> i = 0%nat \/ (length row < 2)%nat) ->
  (forall w, (Batched.accumulate rows w).1 = nil_slice)
  /\ quotes_document nil_slice
     = "{" +:+ newline +:+ "  " +:+ dquote +:+ "quotes" +:+ dquote +:+ ": null"
       +:+ newline +:+ "}"
  /\ (forall (file : File) sheetName others (w w' : World),
        GetSheetList file = sheetName :: others ->
        GetRows file sheetName = inl rows ->
        Batched.ReadExcelFile file w = (None, w') ->
        fs w' !! "quotes.json" = Some (quotes_document nil_slice)
        /\ exists m,
             fs w' !! "quotesMetadata.json" = Some (metadata_document m)
             /\ TotalQuotes m = 0).
Proof.
  intros Hnone.
  assert (Hrec : records rows = []).
  { destruct (records rows) as [|q l] eqn:E; [done|].
    assert (Hq : q ∈ records rows) by (rewrite E; left).
    apply records_elem in Hq as (i & row & Hi & [? ?]%retained_true & _).
    destruct (Hnone i row Hi); lia. }
  split; [|split].
  - intros w. destruct (accumulate_records rows w) as (logs & -> & _).
    by rewrite Hrec.
  - reflexivity.
  - intros file sheetName others w w' Hs Hr
      (s & o & rows' & logs & Hs' & Hr' & _ & ->)%ReadExcelFile_success.
    assert (rows' = rows) as -> by congruence. rewrite Hrec. cbn [to_slice].
    match goal with |- context [store "quotesMetadata.json" ?mdoc _] =>
      pose proof (fs_after_success (quotes_document None) mdoc
                    "JSON data successfully written to quotes_output.json"
                    (emits logs w)) as [Hq Hm]
    end.
    split; [exact Hq|]. eexists. split; [exact Hm|]. reflexivity.
Qed.
End PipelineClaims.

(** ** The claims on concrete runs *)

(** C5, on the test workbook: both files are written and the total is the
    number of quotes. *)
Lemma metadata_matches_quotes_witness :
  let w' := (Batched.ReadExcelFile (enc := plain_encoder) (workbook test_rows) test_world).2 in
  exists (quotes : slice Quote) (m : Metadata),
    fs w' !! "quotes.json" = Some (quotes_document (enc := plain_encoder) quotes)
    /\ fs w' !! "quotesMetadata.json" = Some (metadata_document (enc := plain_encoder) m)
    /\ Version m = "1.0"
    /\ URL m = "path/to/file"
    /\ Schema m = {| Format := "JSON"; Encoding := "UTF-8"; FileType := "text" |}
    /\ LastUpdated m = clock test_world
    /\ TotalQuotes m = Z.of_nat (length (elems quotes)).
Proof.
  cbv zeta.
  apply (metadata_matches_quotes (enc := plain_encoder) (workbook test_rows) test_world).
  vm_compute. reflexivity.
Defined.

(** C7, on a workbook without sheets and on one with an unreadable sheet. *)
Lemma early_errors_write_nothing_witness :
  Batched.ReadExcelFile (enc := plain_encoder) workbook_no_sheets test_world
  = (Some (fmt_Errorf "no sheets found in the Excel file"), test_world)
  /\ Batched.ReadExcelFile (enc := plain_encoder) workbook_unreadable test_world
     = (Some (fmt_Errorf_w "unable to load cells: " corrupt_sheet), test_world).
Proof.
  split.
  - apply (proj1 (early_errors_write_nothing (enc := plain_encoder)
                    workbook_no_sheets test_world)).
    reflexivity.
  - apply (proj2 (early_errors_write_nothing (enc := plain_encoder)
                    workbook_unreadable test_world) "Sheet1" [] corrupt_sheet);
      reflexivity.
Defined.


(** C10, on a workbook with a header and two short rows. *)
Lemma no_retained_row_gives_null_witness :
  let w' := (Batched.ReadExcelFile (enc := plain_encoder)
               (workbook rows_none_retained) test_world).2 in
  (Batched.accumulate rows_none_retained test_world).1 = nil_slice
  /\ fs w' !! "quotes.json" = Some (quotes_document (enc := plain_encoder) nil_slice)
  /\ exists m,
       fs w' !! "quotesMetadata.json" = Some (metadata_document (enc := plain_encoder) m)
       /\ TotalQuotes m = 0.
Proof.
  cbv zeta.
  assert (Hshort : forall (i : nat) row,
             rows_none_retained !! i = Some row -> i = 0%nat \/ (length row < 2)%nat).
  { intros [|[|[|i]]] row Hi; simpl in Hi; try discriminate;
      injection Hi as <-; simpl; lia. }
  destruct (no_retained_row_gives_null (enc := plain_encoder) rows_none_retained Hshort)
    as (Hnil & _ & Hrun).
  split; [apply Hnil|].
  apply (Hrun (workbook rows_none_retained) "Sheet1" [] test_world); reflexivity.
Defined.

(** ** Further checks by evaluation *)

(** The end-to-end scenario of the tests: three records with identifiers
    1, 2, 3, the texts in order, and the tags as split. *)
Example test_rows_records :
  (Batched.accumulate test_rows test_world).1
  = Some [ new_Quote 1 "Test quote 1" (Some ["inspiration"; "motivation"]) "en-US";
           new_Quote 2 "Test quote 2" (Some [""]) "en-US";
           new_Quote 3 "Test quote 3" (Some ["wisdom"; "life"; "philosophy"]) "en-US" ].
Proof. reflexivity. Qed.

(** 250 rows go through two full batches and a last one of 50. *)
Example many_rows_all_kept :
  length (elems (Batched.accumulate (many_rows 250) test_world).1) = 250%nat
  /\ map ID (elems (Batched.accumulate (many_rows 250) test_world).1)
     = counter 250.
Proof. vm_compute. split; reflexivity. Qed.

(** A skipped row is reported in the log and nowhere else. *)
Example skipped_row_is_logged :
  trace (Batched.accumulate rows_short_middle test_world).2
  = [EvLog "Skipping row 2 due to insufficient columns: [only]"].
Proof. reflexivity. Qed.

(** * Further properties of the code *)

(** ** The log of the row loop *)

Lemma Batched_range_rows_trace batchSize rows :
  forall (i : nat) (acc batch : slice Quote) (w : World),
    (Batched.range_rows batchSize (Z.of_nat i) rows acc batch w).2
    = emits (skip_lines i rows) w.
Proof.
  induction rows as [|row rows IH]; intros i acc batch w.
  - cbn. by rewrite emits_nil.
  - cbn [Batched.range_rows skip_lines]. cbv zeta. rewrite index_succ.
    destruct i as [|i].
    { change (Z.of_nat 0 =? 0) with true. cbn iota. cbn [Nat.leb andb app]. apply IH. }
    rewrite index_eqb_0, len_lt_2. change (1 <=? S i)%nat with true. cbn [andb].
    destruct (2 <=? length row)%nat; cbn [negb app].
    + destruct (slice_len (append batch (row_quote (Z.of_nat (S i)) row)) >=? batchSize);
        apply IH.
    + unfold mbind, M_bind, log_Printf. rewrite IH. apply emit_emits.
Qed.

Lemma accumulate_exact rows w :
  Batched.accumulate rows w = (to_slice (records rows), emits (skip_lines 0 rows) w).
Proof.
  destruct (accumulate_records rows w) as (logs & Hacc & _).
  rewrite Hacc. f_equal.
  assert (Hsnd : (Batched.accumulate rows w).2
                 = (Batched.range_rows 100 0 rows nil_slice nil_slice w).2).
  { unfold Batched.accumulate, mbind, M_bind.
    destruct (Batched.range_rows 100 0 rows nil_slice nil_slice w) as [[acc batch] w'].
    by destruct (slice_len batch >? 0). }
  rewrite Hacc in Hsnd. cbn [snd] in Hsnd. rewrite Hsnd.
  apply (Batched_range_rows_trace 100 rows 0).
Qed.

Lemma skip_lines_elem e rows : forall i : nat,
  e ∈ skip_lines i rows <->
  exists (k : nat) row,
    rows !! k = Some row /\ (1 <= i + k)%nat /\ (length row < 2)%nat
    /\ e = skip_line (i + k) row.
Proof.
  induction rows as [|row rows IH]; intros i; cbn [skip_lines].
  - split; [by intros ?%elem_of_nil | by intros (k & r & ? & _)].
  - rewrite elem_of_app, IH. split.
    + intros [He | (k & r & Hk & H1 & H2 & ->)].
      * destruct (1 <=? i)%nat eqn:Hi; [|by apply elem_of_nil in He].
        destruct (2 <=? length row)%nat eqn:Hl; [by apply elem_of_nil in He|].
        apply list_elem_of_singleton in He as ->.
        apply Nat.leb_le in Hi. apply Nat.leb_gt in Hl.
        exists 0%nat, row. rewrite Nat.add_0_r. done.
      * exists (S k), r. rewrite Nat.add_succ_r. done.
    + intros ([|k] & r & Hk & H1 & H2 & ->).
      * left. rewrite Nat.add_0_r in *. simpl in Hk. injection Hk as ->.
        apply Nat.leb_le in H1. apply Nat.leb_gt in H2. rewrite H1, H2.
        by apply list_elem_of_singleton.
      * right. exists k, r. by rewrite Nat.add_succ_r in *.
Qed.

Lemma records_skip_lines_length rows : forall i : nat,
  (length (records_from (S i) rows) + length (skip_lines (S i) rows) = length rows)%nat.
Proof.
  induction rows as [|row rows IH]; intros i; [done|].
  cbn [records_from skip_lines]. rewrite retained_S.
  change (1 <=? S i)%nat with true. cbn [andb].
  rewrite !length_app. specialize (IH (S i)).
  destruct (2 <=? length row)%nat; simpl; lia.
Qed.

(** X1.  The log lines that the row loop adds are exactly the lines of the
    rows after the header that have fewer than 2 cells, in row order, each
    with the index and the cells of its row. *)
Theorem skipped_rows_are_logged (rows : list (list string)) (w : World) :
  trace (Batched.accumulate rows w).2 = trace w ++ skip_lines 0 rows
  /\ (forall e, e ∈ skip_lines 0 rows <->
        exists (i : nat) row,
          rows !! i = Some row /\ (1 <= i)%nat /\ (length row < 2)%nat
          /\ e = EvLog ("Skipping row " +:+ strconv_Itoa (Z.of_nat i)
                        +:+ " due to insufficient columns: " +:+ fmt_v_strings row)).
Proof.
  split.
  - by rewrite accumulate_exact.
  - intros e. apply (skip_lines_elem e rows 0).
Qed.

(** X1, on a workbook with a one-cell row between two quotes. *)
Lemma skipped_rows_are_logged_witness :
  EvLog "Skipping row 2 due to insufficient columns: [only]"
  ∈ skip_lines 0 rows_short_middle.
Proof.
  apply (proj2 (skipped_rows_are_logged rows_short_middle test_world)).
  exists 2%nat, ["only"]. repeat split; simpl; lia.
Defined.

(** X2.  Every row after the header is either converted or reported: the
    number of records plus the number of log lines added by the loop is
    the number of rows minus the header. *)
Theorem every_data_row_converted_or_logged (rows : list (list string)) (w : World) :
  (length (elems (Batched.accumulate rows w).1)
   + (length (trace (Batched.accumulate rows w).2) - length (trace w))
   = length rows - 1)%nat.
Proof.
  rewrite accumulate_exact. cbn [fst snd emits trace].
  rewrite elems_to_slice, length_app.
  destruct rows as [|header rows]; [simpl; lia|].
  unfold records. cbn [records_from skip_lines]. rewrite retained_0.
  cbn [Nat.leb andb app length].
  pose proof (records_skip_lines_length rows 0). lia.
Qed.

(** X3.  The number of tags of a record is the number of commas of cell 0
    plus one: empty tags between, before and after commas are kept. *)
Theorem tags_count_commas (i : Z) (row : list string) :
  exists tags,
    Tags (row_quote i row) = Some tags
    /\ length tags = S (count_byte ","%char (cell row 0)).
Proof.
  eexists. split; [reflexivity|].
  generalize (cell row 0). intros s.
  induction s as [|c s IH]; [done|].
  cbn [strings_ReplaceAll count_byte].
  destruct (Ascii.eqb_spec c " "%char) as [->|Hsp].
  - cbn. exact IH.
  - cbn [strings_Split]. destruct (Ascii.eqb c ","%char).
    + cbn [length]. rewrite IH. done.
    + pose proof (strings_Split_nonempty (strings_ReplaceAll s " "%char "") ","%char).
      destruct (strings_Split (strings_ReplaceAll s " "%char "") ","%char); [done|].
      cbn [length] in *. rewrite IH. done.
Qed.

(** ** The current pipeline, case by case *)

Section PipelineCases.
Context {enc : StringEncoder}.

(** [ReadExcelFile] on every workbook. *)
Lemma ReadExcelFile_cases (file : File) (w : World) :
  Batched.ReadExcelFile file w =
  match GetSheetList file with
  | [] => (Some (fmt_Errorf "no sheets found in the Excel file"), w)
  | sheetName :: _ =>
      match GetRows file sheetName with
      | inr err => (Some (fmt_Errorf_w "unable to load cells: " err), w)
      | inl rows =>
          Batched.write_outputs (to_slice (records rows)) (emits (skip_lines 0 rows) w)
      end
  end.
Proof.
  unfold Batched.ReadExcelFile.
  destruct (GetSheetList file) as [|sheetName others]; [done|].
  destruct (GetRows file sheetName) as [rows|err]; [|done].
  unfold mbind, M_bind. by rewrite accumulate_exact.
Qed.

(** X4.  Whatever the workbook and the outcome, [ReadExcelFile] leaves
    every file other than [quotes.json] and [quotesMetadata.json] as it
    was. *)
Theorem ReadExcelFile_touches_two_files (file : File) (w : World) (name : string) :
  name <> "quotes.json" -> name <> "quotesMetadata.json" ->
  fs (Batched.ReadExcelFile file w).2 !! name = fs w !! name.
Proof.
  intros Hq Hm. rewrite ReadExcelFile_cases.
  destruct (GetSheetList file) as [|sheetName others]; [done|].
  destruct (GetRows file sheetName) as [rows|err]; [|done].
  rewrite write_outputs_cases. cbv zeta. cbn [write_error emits clock].
  destruct (write_error w "quotes.json").
  { cbn [snd emit fs]. by rewrite fs_store_reached_ne. }
  destruct (write_error w "quotesMetadata.json"); cbn [snd emit].
  - rewrite fs_store_reached_ne by done. cbn. by rewrite lookup_insert_ne.
  - cbn. by rewrite !lookup_insert_ne.
Qed.

(** X5.  [ReadExcelFile] returns nil exactly when the workbook has a
    sheet, the rows of its first sheet can be read, and both writes go
    through. *)
Theorem ReadExcelFile_succeeds_iff (file : File) (w : World) :
  (Batched.ReadExcelFile file w).1 = None <->
  exists sheetName others rows,
    GetSheetList file = sheetName :: others
    /\ GetRows file sheetName = inl rows
    /\ write_error w "quotes.json" = None
    /\ write_error w "quotesMetadata.json" = None.
Proof.
  rewrite ReadExcelFile_cases. split.
  - destruct (GetSheetList file) as [|sheetName others] eqn:Hs; [done|].
    destruct (GetRows file sheetName) as [rows|err] eqn:Hr; [|done].
    rewrite write_outputs_cases. cbv zeta. cbn [write_error emits].
    destruct (write_error w "quotes.json") eqn:Hq; [done|].
    destruct (write_error w "quotesMetadata.json") eqn:Hm; [done|].
    intros _. exists sheetName, others, rows. repeat split; done.
  - intros (sheetName & others & rows & -> & -> & Hq & Hm).
    rewrite write_outputs_cases. cbv zeta. cbn [write_error emits].
    by rewrite Hq, Hm.
Qed.

(** X6.  When the quotes file cannot be written, the pipeline logs the
    failure and returns an error that wraps it.  The quotes file is as it
    was when the write failed before opening it, and holds the bytes that
    the write reached otherwise; every other file is as it was, and the
    metadata file is not even attempted: after the log lines of the
    skipped rows, the only calls are the failed write and the log line. *)
Theorem quotes_write_failure_stops_the_run
    (file : File) sheetName others rows err (w : World) :
  GetSheetList file = sheetName :: others ->
  GetRows file sheetName = inl rows ->
  write_error w "quotes.json" = Some err ->
  let e := fmt_Errorf_w "error writing JSON to file: " err in
  let qdoc := quotes_document (to_slice (records rows)) in
  let run := Batched.ReadExcelFile file w in
  run.1 = Some e
  /\ Unwrap e = Some err
  /\ fs run.2
     = match write_reached w "quotes.json" with
       | None => fs w
       | Some n => <["quotes.json" := substring 0 n qdoc]> (fs w)
       end
  /\ (forall name, name <> "quotes.json" -> fs run.2 !! name = fs w !! name)
  /\ trace run.2
     = trace w ++ skip_lines 0 rows
       ++ [EvWriteFile "quotes.json" qdoc;
           EvLog ("Error writing JSON to file: " +:+ Error e)].
Proof.
  intros Hs Hr Hq. cbv zeta. rewrite ReadExcelFile_cases, Hs, Hr.
  rewrite write_outputs_cases. cbv zeta. cbn [write_error emits].
  rewrite Hq. cbn [fst snd emit fs trace].
  split; [done|]. split; [done|]. split; [|split].
  - rewrite fs_store_reached. cbn. by destruct (write_reached w "quotes.json").
  - intros name Hne. by rewrite fs_store_reached_ne.
  - rewrite trace_store_reached. cbn. by rewrite <- !app_assoc.
Qed.

(** X7.  A successful run calls its collaborators in this order: the log
    lines of the skipped rows, one write of [quotes.json], one write of
    [quotesMetadata.json], and the completion message. *)
Theorem successful_run_calls (file : File) sheetName others rows (w : World) :
  GetSheetList file = sheetName :: others ->
  GetRows file sheetName = inl rows ->
  (Batched.ReadExcelFile file w).1 = None ->
  let quotes := to_slice (records rows) in
  trace (Batched.ReadExcelFile file w).2
  = trace w ++ skip_lines 0 rows
    ++ [EvWriteFile "quotes.json" (quotes_document quotes);
        EvWriteFile "quotesMetadata.json"
          (metadata_document (Batched.new_Metadata (clock w) quotes));
        EvPrintln "JSON data successfully written to quotes_output.json"].
Proof.
  intros Hs Hr. cbv zeta. rewrite ReadExcelFile_cases, Hs, Hr.
  rewrite write_outputs_cases. cbv zeta. cbn [write_error emits clock].
  destruct (write_error w "quotes.json"); [done|].
  destruct (write_error w "quotesMetadata.json"); [done|].
  intros _. cbn. by rewrite <- !app_assoc.
Qed.

(** X8.  Only the first sheet counts: two workbooks with the same first
    sheet name and the same answer for its rows behave alike, whatever
    their other sheets hold. *)
Theorem only_first_sheet_is_read (file1 file2 : File) sheetName others1 others2 (w : World) :
  GetSheetList file1 = sheetName :: others1 ->
  GetSheetList file2 = sheetName :: others2 ->
  GetRows file1 sheetName = GetRows file2 sheetName ->
  Batched.ReadExcelFile file1 w = Batched.ReadExcelFile file2 w.
Proof.
  intros Hs1 Hs2 Hr. by rewrite !ReadExcelFile_cases, Hs1, Hs2, Hr.
Qed.

(** X9.  The files that exist before the run are never read: with other
    files in place, the result and the calls are the same, and after a
    successful run so are the two documents. *)
Theorem prior_files_are_not_read (file : File) (w : World) (files : gmap string string) :
  let run := Batched.ReadExcelFile file w in
  let run' := Batched.ReadExcelFile file (with_fs files w) in
  run'.1 = run.1
  /\ trace run'.2 = trace run.2
  /\ (run.1 = None ->
      fs run'.2 !! "quotes.json" = fs run.2 !! "quotes.json"
      /\ fs run'.2 !! "quotesMetadata.json" = fs run.2 !! "quotesMetadata.json").
Proof.
  cbv zeta. rewrite !ReadExcelFile_cases.
  destruct (GetSheetList file) as [|sheetName others]; [done|].
  destruct (GetRows file sheetName) as [rows|err]; [|done].
  rewrite !write_outputs_cases. cbv zeta. cbn [write_error emits clock with_fs].
  destruct (write_error w "quotes.json").
  { cbn [fst snd emit trace]. by rewrite !trace_store_reached. }
  destruct (write_error w "quotesMetadata.json").
  { cbn [fst snd]. by rewrite !trace_store_reached. }
  cbn. split; [done|]. split; [done|]. intros _.
  rewrite !(lookup_insert_ne _ "quotesMetadata.json" "quotes.json") by done.
  by rewrite !lookup_insert_eq.
Qed.
End PipelineCases.

(** ** The JSON values of the records *)

Lemma map_JString_inj (l1 l2 : list string) :
  map JString l1 = map JString l2 -> l1 = l2.
Proof.
  revert l2. induction l1 as [|x l1 IH]; intros [|y l2] H; try done.
  injection H as -> H. by rewrite (IH l2 H).
Qed.

Lemma slice_json_JString_inj (t1 t2 : slice string) :
  slice_json JString t1 = slice_json JString t2 -> t1 = t2.
Proof.
  destruct t1 as [l1|], t2 as [l2|]; cbn; intros H; try done.
  injection H as H. by rewrite (map_JString_inj l1 l2 H).
Qed.

Lemma Quote_json_inj (q1 q2 : Quote) : Quote_json q1 = Quote_json q2 -> q1 = q2.
Proof.
  destruct q1 as [id1 text1 author1 year1 context1 tags1 lang1],
           q2 as [id2 text2 author2 year2 context2 tags2 lang2].
  unfold Quote_json, omitempty_string, omitempty_int.
  cbn [ID Text Author Year Context Tags Language].
  destruct (String.eqb_spec author1 ""), (String.eqb_spec author2 "");
    destruct (Z.eqb_spec year1 0), (Z.eqb_spec year2 0);
    destruct (String.eqb_spec context1 ""), (String.eqb_spec context2 "");
    cbn [app]; intros H; try discriminate H;
    injection H; clear H; intros; subst;
    match goal with
    | H : slice_json JString _ = slice_json JString _ |- _ =>
        apply slice_json_JString_inj in H; by subst
    end.
Qed.

(** X10.  The JSON value built for a quotes document determines the
    document: the fields left out by [omitempty] and the difference
    between a nil slice ([null]) and an empty one ([[]]) lose nothing. *)
Theorem QuotesData_json_determines_quotes (d1 d2 : Batched.QuotesData) :
  Batched.QuotesData_json d1 = Batched.QuotesData_json d2 -> d1 = d2.
Proof.
  destruct d1 as [quotes1], d2 as [quotes2]. unfold Batched.QuotesData_json. cbn.
  intros H. injection H as H. f_equal.
  destruct quotes1 as [l1|], quotes2 as [l2|]; try done.
  cbn [slice_json] in H. injection H as H. f_equal.
  revert l2 H. induction l1 as [|q1 l1 IH]; intros [|q2 l2] H; try done.
  cbn [map] in H.
  pose proof (f_equal (hd JNull) H) as Hq. pose proof (f_equal (@tl json) H) as Ht.
  cbn [hd tl] in Hq, Ht. apply Quote_json_inj in Hq as ->.
  by rewrite (IH l2 Ht).
Qed.

(** X11.  The object written for a record of the pipeline has exactly the
    members [id], [text], [tags] and [lang], in this order: the optional
    members [author], [year] and [context] never appear, and [tags] is a
    non-empty array, never [null]. *)
Theorem record_json_members (rows : list (list string)) (w : World) (q : Quote) :
  q ∈ elems (Batched.accumulate rows w).1 ->
  exists tags,
    tags <> []
    /\ Quote_json q
       = JObject [("id", JNumber (ID q)); ("text", JString (Text q));
                  ("tags", JArray (map JString tags)); ("lang", JString "en-US")].
Proof.
  rewrite accumulate_elems.
  intros (i & row & _ & _ & ->)%records_elem.
  exists (strings_Split (strings_ReplaceAll (cell row 0) " "%char "") ","%char).
  split; [apply strings_Split_nonempty | reflexivity].
Qed.

(** ** Writing, the older variant, and [main] *)

Section Variants.
Context {enc : StringEncoder}.

(** X12.  [WriteJSONToFile] either stores the encoding of the data under
    the file name, or returns an error that wraps the failure of the
    write; the file is then as it was when the write failed before
    opening it, and holds the bytes that the write reached otherwise.  No
    other file changes in either case. *)
Theorem WriteJSONToFile_outcomes (filename : string) (data : Batched.QuotesData) (w : World) :
  let run := Batched.WriteJSONToFile filename data w in
  let doc := quotes_document (Batched.Quotes data) in
  (forall name, name <> filename -> fs run.2 !! name = fs w !! name)
  /\ match write_error w filename with
     | None => run.1 = None /\ fs run.2 !! filename = Some doc
     | Some err =>
         run.1 = Some (fmt_Errorf_w "error writing JSON to file: " err)
         /\ Unwrap (fmt_Errorf_w "error writing JSON to file: " err) = Some err
         /\ fs run.2
            = match write_reached w filename with
              | None => fs w
              | Some n => <[filename := substring 0 n doc]> (fs w)
              end
     end.
Proof.
  cbv zeta.
  unfold Batched.WriteJSONToFile, json_MarshalIndent, os_WriteFile, mbind, M_bind, mret, M_ret.
  cbn [write_error emit]. destruct data as [quotes].
  destruct (write_error w filename) as [err|]; cbn [fst snd].
  - split.
    + intros name Hne. by rewrite fs_store_reached_ne.
    + split; [done|]. split; [done|]. rewrite fs_store_reached. cbn.
      by destruct (write_reached w filename).
  - cbn. split.
    + intros name Hne. by rewrite lookup_insert_ne.
    + split; [done|]. apply lookup_insert_eq.
Qed.

(** The older [ReadExcelFile] on every workbook. *)
Lemma Legacy_ReadExcelFile_cases (file : File) (w : World) :
  Legacy.ReadExcelFile file w =
  match GetSheetList file with
  | [] => (Some (fmt_Errorf "no sheets found in the Excel file"), w)
  | sheetName :: _ =>
      match GetRows file sheetName with
      | inr err => (Some (fmt_Errorf_w "unable to load cells: " err), w)
      | inl rows =>
          let quotes := to_slice (records rows) in
          let doc := combined_document quotes (Batched.new_Metadata (clock w) quotes) in
          let w1 := emit (EvWriteFile "quotes_output.json" doc) w in
          match write_error w "quotes_output.json" with
          | Some err =>
              (Some (fmt_Errorf_w "error writing JSON to file: "
                       (fmt_Errorf_w "error writing JSON to file: " err)),
               store_reached "quotes_output.json" doc w1)
          | None =>
              (None,
               emit (EvPrintln "JSON data successfully written to quotes_output.json")
                 (store "quotes_output.json" doc w1))
          end
      end
  end.
Proof.
  unfold Legacy.ReadExcelFile.
  destruct (GetSheetList file) as [|sheetName others]; [done|].
  destruct (GetRows file sheetName) as [rows|err]; [|done].
  change 0 with (Z.of_nat 0). rewrite Legacy_range_rows_records, append_all_nil_slice.
  fold (records rows). cbv zeta.
  unfold Legacy.WriteJSONToFile, json_MarshalIndent, os_WriteFile, time_Now_Format_RFC3339,
    fmt_Println, mbind, M_bind, mret, M_ret.
  cbn [write_error emit clock].
  by destruct (write_error w "quotes_output.json").
Qed.

(** X13.  The older [ReadExcelFile] returns nil exactly when the workbook
    has a sheet with readable rows and the write goes through; it then has
    written one file, [quotes_output.json], holding the quotes and a
    metadata value whose total is the number of quotes beside it. *)
Theorem Legacy_ReadExcelFile_result (file : File) (w : World) :
  let run := Legacy.ReadExcelFile file w in
  (run.1 = None <->
   exists sheetName others rows,
     GetSheetList file = sheetName :: others
     /\ GetRows file sheetName = inl rows
     /\ write_error w "quotes_output.json" = None)
  /\ (forall sheetName others rows,
        GetSheetList file = sheetName :: others ->
        GetRows file sheetName = inl rows ->
        run.1 = None ->
        exists m,
          fs run.2 = <["quotes_output.json" :=
                        combined_document (to_slice (records rows)) m]> (fs w)
          /\ TotalQuotes m = Z.of_nat (length (records rows))
          /\ LastUpdated m = clock w).
Proof.
  cbv zeta. rewrite Legacy_ReadExcelFile_cases. split; [split|].
  - destruct (GetSheetList file) as [|sheetName others] eqn:Hs; [done|].
    destruct (GetRows file sheetName) as [rows|err] eqn:Hr; [|done].
    cbv zeta. destruct (write_error w "quotes_output.json") eqn:Hw; [done|].
    intros _. exists sheetName, others, rows. repeat split; done.
  - intros (sheetName & others & rows & -> & -> & Hw). cbv zeta. by rewrite Hw.
  - intros sheetName others rows -> ->. cbv zeta.
    destruct (write_error w "quotes_output.json"); [done|]. intros _.
    exists (Batched.new_Metadata (clock w) (to_slice (records rows))).
    split; [done|]. split; [|done].
    cbn. unfold slice_len, len. by rewrite elems_to_slice.
Qed.

(** X14.  Both variants build the same JSON values: in a world where all
    three writes go through, the older variant writes the quotes and the
    metadata as the two members of one object, and the current one writes
    the same quotes and the same metadata as two documents. *)
Theorem variants_write_the_same_values (file : File) sheetName others rows (w : World) :
  GetSheetList file = sheetName :: others ->
  GetRows file sheetName = inl rows ->
  write_error w "quotes_output.json" = None ->
  write_error w "quotes.json" = None ->
  write_error w "quotesMetadata.json" = None ->
  exists (quotes metadata : json),
    fs (Legacy.ReadExcelFile file w).2 !! "quotes_output.json"
    = Some (render "" "  " 0 (JObject [("quotes", quotes); ("metadata", metadata)]))
    /\ fs (Batched.ReadExcelFile file w).2 !! "quotes.json"
       = Some (render "" "  " 0 (JObject [("quotes", quotes)]))
    /\ fs (Batched.ReadExcelFile file w).2 !! "quotesMetadata.json"
       = Some (render "" " " 0 metadata).
Proof.
  intros Hs Hr Ho Hq Hm.
  rewrite Legacy_ReadExcelFile_cases, ReadExcelFile_cases, Hs, Hr.
  rewrite write_outputs_cases. cbv zeta. cbn [write_error emits clock].
  rewrite Ho, Hq, Hm.
  exists (slice_json Quote_json (to_slice (records rows))),
    (Metadata_json (Batched.new_Metadata (clock w) (to_slice (records rows)))).
  cbn [fs snd emit store]. split; [apply lookup_insert_eq|]. split.
  - rewrite lookup_insert_ne by done. apply lookup_insert_eq.
  - apply lookup_insert_eq.
Qed.

(** X15.  When the write of the older variant fails, the returned error
    carries the prefix twice and wraps the failure two levels down (once
    in [WriteJSONToFile], once in [ReadExcelFile]); no file other than
    [quotes_output.json] changes. *)
Theorem Legacy_write_failure_wrapped_twice
    (file : File) sheetName others rows err (w : World) :
  GetSheetList file = sheetName :: others ->
  GetRows file sheetName = inl rows ->
  write_error w "quotes_output.json" = Some err ->
  exists e,
    (Legacy.ReadExcelFile file w).1 = Some e
    /\ Error e = "error writing JSON to file: error writing JSON to file: " +:+ Error err
    /\ (Unwrap e ≫= Unwrap) = Some err
    /\ (forall name, name <> "quotes_output.json" ->
          fs (Legacy.ReadExcelFile file w).2 !! name = fs w !! name).
Proof.
  intros Hs Hr Hw. rewrite Legacy_ReadExcelFile_cases, Hs, Hr. cbv zeta. rewrite Hw.
  eexists. split; [reflexivity|]. split; [done|]. split; [done|].
  intros name Hne. cbn [snd]. by rewrite fs_store_reached_ne.
Qed.

(** X16.  With a workbook that opens, the older [ReadQuotesFromExcel]
    returns the result of [ReadExcelFile] and releases the handle once,
    after the conversion; whether the release fails makes no difference to
    the result, to the files or to the log. *)
Theorem Legacy_ReadQuotesFromExcel_opened (fileName : string) (file : File) (w : World) :
  workbooks w fileName = inl file ->
  let run := Legacy.ReadExcelFile file (emit (EvOpenFile fileName) w) in
  Legacy.ReadQuotesFromExcel fileName w = (Legacy.Returned run.1, emit EvClose run.2).
Proof.
  intros Hopen. cbv zeta.
  unfold Legacy.ReadQuotesFromExcel, OpenExcelFile, excelize_OpenFile, file_Close,
    mbind, M_bind, mret, M_ret.
  rewrite Hopen.
  by destruct (Legacy.ReadExcelFile file (emit (EvOpenFile fileName) w)).
Qed.
(** [ReadExcelFile] only adds calls to the trace, and none of them opens
    a workbook. *)
Lemma ReadExcelFile_trace_shape (file : File) (w : World) :
  exists evs,
    trace (Batched.ReadExcelFile file w).2 = trace w ++ evs
    /\ forall name, EvOpenFile name ∉ evs.
Proof.
  rewrite ReadExcelFile_cases.
  destruct (GetSheetList file) as [|sheetName others].
  { exists []. cbn. rewrite app_nil_r. split; [done|]. intros name. apply not_elem_of_nil. }
  destruct (GetRows file sheetName) as [rows|err].
  2: { exists []. cbn. rewrite app_nil_r. split; [done|]. intros name. apply not_elem_of_nil. }
  assert (Hlogs : forall name, EvOpenFile name ∉ skip_lines 0 rows).
  { by intros name (k & r & _ & _ & _ & ?)%skip_lines_elem. }
  rewrite write_outputs_cases. cbv zeta. cbn [write_error emits emit].
  destruct (write_error w "quotes.json").
  { eexists. cbn [snd emit trace]. rewrite trace_store_reached. cbn.
    rewrite <- !app_assoc. split; [reflexivity|].
    intros name [?%Hlogs|H]%elem_of_app; [done|].
    repeat (apply elem_of_cons in H as [H|H]; [discriminate|]). by apply elem_of_nil in H. }
  destruct (write_error w "quotesMetadata.json").
  - eexists. cbn [snd]. rewrite trace_store_reached. cbn.
    rewrite <- !app_assoc. split; [reflexivity|].
    intros name [?%Hlogs|H]%elem_of_app; [done|].
    repeat (apply elem_of_cons in H as [H|H]; [discriminate|]). by apply elem_of_nil in H.
  - eexists. cbn. rewrite <- !app_assoc. split; [reflexivity|].
    intros name [?%Hlogs|H]%elem_of_app; [done|].
    repeat (apply elem_of_cons in H as [H|H]; [discriminate|]). by apply elem_of_nil in H.
Qed.

(** X17.  [main] with the current [utils] returns normally exactly when
    [quotes.xlsx] opens, has a sheet with readable rows, and both writes
    go through, and both files are then in place; in every other case it
    panics (it never exits through [os.Exit]), and a failed open leaves
    the files alone.  Its first call opens [quotes.xlsx], it opens no
    other workbook, and a workbook that was opened is released. *)
Theorem main_outcome (w : World) :
  let run := Batched.main w in
  (run.1 = Finished <->
   exists file sheetName others rows,
     workbooks w "quotes.xlsx" = inl file
     /\ GetSheetList file = sheetName :: others
     /\ GetRows file sheetName = inl rows
     /\ write_error w "quotes.json" = None
     /\ write_error w "quotesMetadata.json" = None)
  /\ (run.1 = Finished ->
      is_Some (fs run.2 !! "quotes.json") /\ is_Some (fs run.2 !! "quotesMetadata.json"))
  /\ (forall code, run.1 <> ExitStatus code)
  /\ (forall err, workbooks w "quotes.xlsx" = inr err ->
        run.1 = Panicked (fmt_Errorf_w "failed to open Excel file quotes.xlsx: " err)
        /\ fs run.2 = fs w)
  /\ (exists evs,
        trace run.2 = trace w ++ EvOpenFile "quotes.xlsx" :: evs
        /\ (forall name, EvOpenFile name ∉ evs)
        /\ (forall file, workbooks w "quotes.xlsx" = inl file -> EvClose ∈ evs)).
Proof.
  cbv zeta. unfold Batched.main.
  pose proof (ReadQuotesFromExcel_releases_handle "quotes.xlsx" w) as Hrun.
  destruct (workbooks w "quotes.xlsx") as [file|err] eqn:Hopen; cbv zeta in Hrun;
    rewrite Hrun; clear Hrun.
  - (* the workbook opens *)
    destruct (ReadExcelFile_trace_shape file (emit (EvOpenFile "quotes.xlsx") w))
      as (evs & Htrace & Hno).
    assert (Hcalls :
      forall r : ProcessEnd,
      exists evs',
        trace (r, emits
                 (EvClose ::
                  match Close file with
                  | Some cerr => [EvLog ("Error closing the Excel file: " +:+ Error cerr)]
                  | None => []
                  end)
                 (Batched.ReadExcelFile file (emit (EvOpenFile "quotes.xlsx") w)).2).2
        = trace w ++ EvOpenFile "quotes.xlsx" :: evs'
        /\ (forall name, EvOpenFile name ∉ evs')
        /\ (forall file', @inl File error file = inl file' -> EvClose ∈ evs')).
    { intros r. cbn [snd emits trace]. rewrite Htrace. cbn [emit trace].
      eexists. rewrite <- !app_assoc. cbn [app]. split; [reflexivity|]. split.
      - intros name [?%Hno|H]%elem_of_app; [done|].
        apply elem_of_cons in H as [H|H]; [discriminate|].
        destruct (Close file); [|by apply elem_of_nil in H].
        apply elem_of_cons in H as [H|H]; [discriminate|]. by apply elem_of_nil in H.
      - intros _ _. apply elem_of_app. right. left. }
    rewrite ReadExcelFile_cases in *.
    destruct (GetSheetList file) as [|sheetName others] eqn:Hs.
    { cbn [fst snd] in *. split; [split; [done|]|].
      - intros (f & s' & o & r & [= <-] & Hs' & _). by rewrite Hs in Hs'.
      - split; [done|]. split; [done|]. split; [done|]. apply (Hcalls Finished). }
    destruct (GetRows file sheetName) as [rows|rerr] eqn:Hr.
    2: { cbn [fst snd] in *. split; [split; [done|]|].
      - intros (f & s' & o & r & [= <-] & Hs' & Hr' & _).
        rewrite Hs in Hs'. injection Hs' as <- <-. by rewrite Hr in Hr'.
      - split; [done|]. split; [done|]. split; [done|]. apply (Hcalls Finished). }
    rewrite write_outputs_cases in *. cbv zeta in *. cbn [write_error emits emit] in *.
    destruct (write_error w "quotes.json") as [qerr|] eqn:Hq.
    { cbn [fst snd] in *. split; [split; [done|]|].
      - intros (f & s' & o & r & [= <-] & _ & _ & Hq' & _). congruence.
      - split; [done|]. split; [done|]. split; [done|]. apply (Hcalls Finished). }
    destruct (write_error w "quotesMetadata.json") as [merr|] eqn:Hm.
    { cbn [fst snd] in *. split; [split; [done|]|].
      - intros (f & s' & o & r & [= <-] & _ & _ & _ & Hm'). congruence.
      - split; [done|]. split; [done|]. split; [done|]. apply (Hcalls Finished). }
    cbn [fst snd] in *. split; [split; [|done]|].
    + intros _. exists file, sheetName, others, rows. repeat split; done.
    + split.
      { intros _. cbn. split.
        - rewrite lookup_insert_ne by done. rewrite lookup_insert_eq. by eexists.
        - rewrite lookup_insert_eq. by eexists. }
      split; [done|]. split; [done|]. apply (Hcalls Finished).
  - (* the workbook does not open *)
    cbn [fst snd]. split; [split; [done|]|].
    + by intros (f & s' & o & r & [=] & _).
    + split; [done|]. split; [done|]. split.
      { intros e [= <-]. done. }
      eexists. cbn. split; [reflexivity|]. split; [|done].
      intros name H. apply elem_of_cons in H as [H|H]; [discriminate|].
      by apply elem_of_nil in H.
Qed.

(** X18.  [main] with the older [utils]: when the workbook does not open
    the process exits with status 1 and does not panic; when it opens,
    [main] returns normally if [ReadExcelFile] returns nil and panics with
    its error otherwise. *)
Theorem Legacy_main_outcome (w : World) :
  match workbooks w "quotes.xlsx" with
  | inr err => (Legacy.main w).1 = ExitStatus 1 /\ fs (Legacy.main w).2 = fs w
  | inl file =>
      (Legacy.main w).1
      = match (Legacy.ReadExcelFile file (emit (EvOpenFile "quotes.xlsx") w)).1 with
        | None => Finished
        | Some err => Panicked err
        end
  end.
Proof.
  unfold Legacy.main, Legacy.ReadQuotesFromExcel, OpenExcelFile, excelize_OpenFile,
    file_Close, log_Printf, mbind, M_bind, mret, M_ret.
  destruct (workbooks w "quotes.xlsx") as [file|err]; [|done].
  destruct (Legacy.ReadExcelFile file (emit (EvOpenFile "quotes.xlsx") w)) as [[e|] w1];
    done.
Qed.
End Variants.

(** ** The further properties on concrete runs *)

(** X4, on a file that the run has no reason to touch. *)
Lemma ReadExcelFile_touches_two_files_witness :
  let w := with_fs {["notes.txt" := "keep"]} test_world in
  fs (Batched.ReadExcelFile (enc := plain_encoder) (workbook test_rows) w).2 !! "notes.txt"
  = Some "keep".
Proof.
  cbv zeta.
  rewrite (ReadExcelFile_touches_two_files (enc := plain_encoder) (workbook test_rows)
             (with_fs {["notes.txt" := "keep"]} test_world) "notes.txt");
    [reflexivity | discriminate | discriminate].
Defined.

(** X5, on the test workbook. *)
Lemma ReadExcelFile_succeeds_iff_witness :
  (Batched.ReadExcelFile (enc := plain_encoder) (workbook test_rows) test_world).1 = None.
Proof.
  apply (proj2 (ReadExcelFile_succeeds_iff (enc := plain_encoder)
                  (workbook test_rows) test_world)).
  exists "Sheet1", [], test_rows. repeat split; reflexivity.
Defined.

(** X6, with a disk that fills up once [quotes.json] has been created:
    the file is left empty and the metadata file is not written. *)
Lemma quotes_write_failure_stops_the_run_witness :
  let w := failing_write "quotes.json" disk_full (Some 0%nat) test_world in
  let run := Batched.ReadExcelFile (enc := plain_encoder) (workbook test_rows) w in
  run.1 = Some (fmt_Errorf_w "error writing JSON to file: " disk_full)
  /\ fs run.2 !! "quotes.json" = Some ""
  /\ fs run.2 !! "quotesMetadata.json" = None.
Proof.
  cbv zeta.
  destruct (quotes_write_failure_stops_the_run (enc := plain_encoder)
              (workbook test_rows) "Sheet1" [] test_rows disk_full
              (failing_write "quotes.json" disk_full (Some 0%nat) test_world))
    as (Hres & _ & Hfs & Hframe & _); try reflexivity.
  split; [exact Hres|]. split.
  - rewrite Hfs. reflexivity.
  - rewrite Hframe; [reflexivity | discriminate].
Defined.

(** X7, on a workbook with a one-cell row between two quotes. *)
Lemma successful_run_calls_witness :
  length (trace (Batched.ReadExcelFile (enc := plain_encoder)
                   (workbook rows_short_middle) test_world).2) = 4%nat.
Proof.
  rewrite (successful_run_calls (enc := plain_encoder) (workbook rows_short_middle)
             "Sheet1" [] rows_short_middle test_world); reflexivity.
Defined.

(** X8, on two workbooks that differ in their second sheet only. *)
Lemma only_first_sheet_is_read_witness :
  Batched.ReadExcelFile (enc := plain_encoder)
    {| GetSheetList := ["Sheet1"; "Drafts"]; GetRows := fun _ => inl test_rows;
       Close := None |} test_world
  = Batched.ReadExcelFile (enc := plain_encoder) (workbook test_rows) test_world.
Proof.
  apply (only_first_sheet_is_read (enc := plain_encoder) _ (workbook test_rows)
           "Sheet1" ["Drafts"] [] test_world); reflexivity.
Defined.

(** X9, with an older [quotes.json] already in place. *)
Lemma prior_files_are_not_read_witness :
  let w := with_fs {["quotes.json" := "old"]} test_world in
  fs (Batched.ReadExcelFile (enc := plain_encoder) (workbook test_rows) w).2 !! "quotes.json"
  = fs (Batched.ReadExcelFile (enc := plain_encoder) (workbook test_rows) test_world).2
    !! "quotes.json".
Proof.
  cbv zeta.
  destruct (prior_files_are_not_read (enc := plain_encoder) (workbook test_rows) test_world
              {["quotes.json" := "old"]}) as (_ & _ & Hfiles).
  apply Hfiles. reflexivity.
Defined.

(** X10, on two documents built the same way. *)
Lemma QuotesData_json_determines_quotes_witness :
  Batched.mkQuotesData (Some [new_Quote 1 "Test quote" (Some ["test"]) "en-US"])
  = Batched.mkQuotesData (Some [row_quote 1 ["test"; "Test quote"]]).
Proof.
  apply QuotesData_json_determines_quotes. reflexivity.
Defined.

(** X11, at the second record of the test workbook. *)
Lemma record_json_members_witness :
  exists tags,
    tags <> []
    /\ Quote_json (row_quote 2 [""; "Test quote 2"])
       = JObject [("id", JNumber 2); ("text", JString "Test quote 2");
                  ("tags", JArray (map JString tags)); ("lang", JString "en-US")].
Proof.
  apply (record_json_members test_rows test_world (row_quote 2 [""; "Test quote 2"])).
  vm_compute. right. left.
Defined.

(** X12, writing a document beside another file. *)
Lemma WriteJSONToFile_outcomes_witness :
  let w := with_fs {["notes.txt" := "keep"]} test_world in
  fs (Batched.WriteJSONToFile (enc := plain_encoder) "test_quotes.json"
        (Batched.mkQuotesData (Some [])) w).2 !! "notes.txt" = Some "keep".
Proof.
  cbv zeta.
  destruct (WriteJSONToFile_outcomes (enc := plain_encoder) "test_quotes.json"
              (Batched.mkQuotesData (Some []))
              (with_fs {["notes.txt" := "keep"]} test_world)) as (Hframe & _).
  rewrite (Hframe "notes.txt"); [reflexivity | discriminate].
Defined.

(** X13, on the test workbook. *)
Lemma Legacy_ReadExcelFile_result_witness :
  (Legacy.ReadExcelFile (enc := plain_encoder) (workbook test_rows) test_world).1 = None
  /\ exists m,
       fs (Legacy.ReadExcelFile (enc := plain_encoder) (workbook test_rows) test_world).2
       = <["quotes_output.json" :=
            combined_document (enc := plain_encoder) (to_slice (records test_rows)) m]>
           (fs test_world)
       /\ TotalQuotes m = 3.
Proof.
  destruct (Legacy_ReadExcelFile_result (enc := plain_encoder) (workbook test_rows) test_world)
    as [Hiff Hfile].
  assert (Hnil : (Legacy.ReadExcelFile (enc := plain_encoder)
                    (workbook test_rows) test_world).1 = None).
  { apply (proj2 Hiff). exists "Sheet1", [], test_rows. repeat split; reflexivity. }
  split; [exact Hnil|].
  destruct (Hfile "Sheet1" [] test_rows) as (m & Hfs & Htotal & _);
    [reflexivity | reflexivity | exact Hnil |].
  exists m. split; [exact Hfs | exact Htotal].
Defined.

(** X14, on the test workbook. *)
Lemma variants_write_the_same_values_witness :
  exists (quotes metadata : json),
    fs (Legacy.ReadExcelFile (enc := plain_encoder) (workbook test_rows) test_world).2
      !! "quotes_output.json"
    = Some (render (enc := plain_encoder) "" "  " 0
              (JObject [("quotes", quotes); ("metadata", metadata)]))
    /\ fs (Batched.ReadExcelFile (enc := plain_encoder) (workbook test_rows) test_world).2
         !! "quotes.json"
       = Some (render (enc := plain_encoder) "" "  " 0 (JObject [("quotes", quotes)]))
    /\ fs (Batched.ReadExcelFile (enc := plain_encoder) (workbook test_rows) test_world).2
         !! "quotesMetadata.json"
       = Some (render (enc := plain_encoder) "" " " 0 metadata).
Proof.
  apply (variants_write_the_same_values (enc := plain_encoder) (workbook test_rows)
           "Sheet1" [] test_rows test_world); reflexivity.
Defined.

(** X15, with a full disk for [quotes_output.json]. *)
Lemma Legacy_write_failure_wrapped_twice_witness :
  exists e,
    (Legacy.ReadExcelFile (enc := plain_encoder) (workbook test_rows)
       (failing_write "quotes_output.json" disk_full (Some 0%nat) test_world)).1 = Some e
    /\ Error e
       = "error writing JSON to file: error writing JSON to file: no space left on device".
Proof.
  destruct (Legacy_write_failure_wrapped_twice (enc := plain_encoder) (workbook test_rows)
              "Sheet1" [] test_rows disk_full
              (failing_write "quotes_output.json" disk_full (Some 0%nat) test_world))
    as (e & Hres & Hmsg & _); try reflexivity.
  exists e. split; [exact Hres | exact Hmsg].
Defined.

(** X16, on a workbook whose release fails. *)
Lemma Legacy_ReadQuotesFromExcel_opened_witness :
  (Legacy.ReadQuotesFromExcel (enc := plain_encoder) "quotes.xlsx"
     (with_workbook "quotes.xlsx" workbook_close_fails test_world)).1
  = Legacy.Returned None.
Proof.
  rewrite (Legacy_ReadQuotesFromExcel_opened (enc := plain_encoder) "quotes.xlsx"
             workbook_close_fails
             (with_workbook "quotes.xlsx" workbook_close_fails test_world));
    reflexivity.
Defined.

(** X17, in the test world, where [quotes.xlsx] is the test workbook. *)
Lemma main_outcome_witness :
  (Batched.main (enc := plain_encoder) test_world).1 = Finished
  /\ is_Some (fs (Batched.main (enc := plain_encoder) test_world).2 !! "quotes.json").
Proof.
  destruct (main_outcome (enc := plain_encoder) test_world) as (Hiff & Hfiles & _).
  assert (Hfin : (Batched.main (enc := plain_encoder) test_world).1 = Finished).
  { apply (proj2 Hiff). exists (workbook test_rows), "Sheet1", [], test_rows.
    repeat split; reflexivity. }
  split; [exact Hfin | exact (proj1 (Hfiles Hfin))].
Defined.
